(** * Free-rider collective intelligence: the simulation engine

    Shallow embedding of [simulate_collective_intelligence] and of the
    parameter models it calls, from [src/freerider_memo_revised.py].

    Conventions of the embedding.
    - Python floats are idealised as real numbers ([R]); [nan], which pandas
      returns for an undefined statistic, is the constructor [NaN] of
      [pyfloat].
    - [np.random] is a global generator.  Its algorithm is not part of the
      repository, so it is a [Generator]: a state type, the calls the
      program makes on it, and the ranges numpy documents for them.  The
      module state [np_state] additionally records the history of calls.
    - The program is written in a state monad over [np_state]; the only
      exception it can meet is the [KeyError] of an empty result table.
    - [print] calls are not modelled, and the trial count is always passed
      (its default, 1000, is an ordinary value of the argument); the default
      of [composition], [None], is the [None] of an option. *)

From Stdlib Require Import String.
From Stdlib Require Import Reals Lra Lia List ZArith Bool.
Import ListNotations.
Open Scope R_scope.

(** ** Agent types and empirical parameters *)

Inductive AgentType : Type :=
| INTRINSIC
| FREE_RIDER
| OPT_OUT.

Definition AgentType_eqb (a b : AgentType) : bool :=
  match a, b with
  | INTRINSIC, INTRINSIC | FREE_RIDER, FREE_RIDER | OPT_OUT, OPT_OUT => true
  | _, _ => false
  end.

(** The keys of the module-level dict [EMPIRICAL_PARAMS].  The dict is read
    at call time, so the models take the table as an argument. *)
Record Params : Type := {
  intrinsic_base_participation : R;
  intrinsic_incentive_participation : R;
  freerider_base_participation : R;
  freerider_incentive_participation : R;
  intrinsic_accuracy : R;
  intrinsic_accuracy_se : R;
  freerider_accuracy : R;
  freerider_accuracy_se : R;
  intrinsic_positive_bias : R;
  freerider_negative_bias : R
}.

Definition EMPIRICAL_PARAMS : Params := {|
  intrinsic_base_participation := 76 / 100;
  intrinsic_incentive_participation := 86 / 100;
  freerider_base_participation := 23 / 100;
  freerider_incentive_participation := 63 / 100;
  intrinsic_accuracy := 29 / 100;
  intrinsic_accuracy_se := 8 / 100;
  freerider_accuracy := 46 / 100;
  freerider_accuracy_se := 12 / 100;
  intrinsic_positive_bias := 78 / 100;
  freerider_negative_bias := 82 / 100
|}.

Definition participation_model (p : Params) (agent_type : AgentType)
    (has_incentive : bool) : R :=
  match agent_type with
  | INTRINSIC =>
      if has_incentive then intrinsic_incentive_participation p
      else intrinsic_base_participation p
  | FREE_RIDER =>
      if has_incentive then freerider_incentive_participation p
      else freerider_base_participation p
  | OPT_OUT => 0
  end.

Definition accuracy_model (p : Params) (agent_type : AgentType) : R :=
  match agent_type with
  | INTRINSIC => intrinsic_accuracy p
  | FREE_RIDER => freerider_accuracy p
  | OPT_OUT => 0
  end.

Definition bias_model (p : Params) (agent_type : AgentType) : R :=
  match agent_type with
  | INTRINSIC => intrinsic_positive_bias p
  | FREE_RIDER => freerider_negative_bias p
  | OPT_OUT => 0
  end.

(** ** Numbers *)

(** [x < y] on floats, as a test. *)
Definition float_lt (x y : R) : bool :=
  if Rlt_dec x y then true else false.

(** [np.clip(x, lo, hi)]. *)
Definition np_clip (x lo hi : R) : R := Rmin (Rmax x lo) hi.

Definition sum_list (xs : list R) : R := fold_right Rplus 0 xs.

(** [np.mean] of a non-empty list. *)
Definition np_mean (xs : list R) : R := sum_list xs / INR (length xs).

(** A float result that may be [nan]. *)
Inductive pyfloat : Type :=
| Num (x : R)
| NaN.

(** [Series.mean()]: [nan] on an empty series. *)
Definition series_mean (xs : list R) : pyfloat :=
  match xs with
  | [] => NaN
  | _ :: _ => Num (np_mean xs)
  end.

(** [Series.std()]: the sample standard deviation (pandas' default
    [ddof=1]), [nan] when fewer than two values are present. *)
Definition series_std (xs : list R) : pyfloat :=
  if (length xs <=? 1)%nat then NaN
  else
    let m := np_mean xs in
    Num (sqrt (sum_list (map (fun x => (x - m) * (x - m)) xs)
               / (INR (length xs) - 1))).

(** ** The random source *)

Record Generator : Type := {
  gen_state : Type;
  gen_seed : Z -> gen_state;
  (** [np.random.random()] *)
  gen_random : gen_state -> R * gen_state;
  (** [np.random.uniform(low, high)] *)
  gen_uniform : R -> R -> gen_state -> R * gen_state;
  (** [np.random.normal(loc, scale)] *)
  gen_normal : R -> R -> gen_state -> R * gen_state;
  gen_random_range : forall s, 0 <= fst (gen_random s) < 1;
  gen_uniform_range : forall lo hi s,
    lo <= hi -> lo <= fst (gen_uniform lo hi s) <= hi
}.

(** One call on [np.random], as recorded in the history. *)
Inductive draw : Type :=
| DrawUniform (low high : R)
| DrawRandom
| DrawNormal (loc scale : R).

Record exception : Type := Raise {
  exc_class : string;
  exc_args : string
}.

Definition KeyError (key : string) : exception :=
  {| exc_class := "KeyError"%string; exc_args := key |}.

(** One row of the results table. *)
Record ResultRow : Type := {
  ground_truth : R;
  collective_estimate : R;
  accuracy : R;
  n_participants : nat
}.

Definition Composition : Type := list (AgentType * Z).

(** The dict the simulation returns. *)
Record Summary : Type := {
  mean_accuracy : pyfloat;
  std_accuracy : pyfloat;
  data : list ResultRow;
  composition_of : Composition
}.

Section Engine.

Variable G : Generator.

(** The state of the [np.random] module: the generator, and the calls made
    on it so far, oldest first. *)
Record np_state : Type := {
  mt : gen_state G;
  draws : list draw
}.

Definition M (A : Type) : Type := np_state -> A * np_state.

Definition ret {A : Type} (a : A) : M A := fun s => (a, s).

Definition bind {A B : Type} (m : M A) (k : A -> M B) : M B :=
  fun s => let (a, s') := m s in k a s'.

Notation "x <- m ;; k" := (bind m (fun x => k))
  (at level 61, m at next level, right associativity).
Notation "m ;;; k" := (bind m (fun _ => k))
  (at level 61, right associativity).

Definition np_random_seed (n : Z) : M unit :=
  fun s => (tt, {| mt := gen_seed G n; draws := draws s |}).

Definition np_random_random : M R :=
  fun s =>
    let (u, g) := gen_random G (mt s) in
    (u, {| mt := g; draws := draws s ++ [DrawRandom] |}).

Definition np_random_uniform (low high : R) : M R :=
  fun s =>
    let (u, g) := gen_uniform G low high (mt s) in
    (u, {| mt := g; draws := draws s ++ [DrawUniform low high] |}).

Definition np_random_normal (loc scale : R) : M R :=
  fun s =>
    let (z, g) := gen_normal G loc scale (mt s) in
    (z, {| mt := g; draws := draws s ++ [DrawNormal loc scale] |}).

Variable params : Params.

(** Body of [for _ in range(count)]: one agent of type [agent_type]. *)
Definition agent_body (agent_type : AgentType) (ground_truth : R)
    (ratings : list R) : M (list R) :=
  let participation_prob := participation_model params agent_type false in
  u <- np_random_random ;;
  if float_lt u participation_prob then
    let individual_accuracy := accuracy_model params agent_type in
    let bias_prob := bias_model params agent_type in
    bn <- match agent_type with
          | INTRINSIC =>
              b <- np_random_random ;;
              ret (if float_lt b bias_prob then 8 else - 2,
                   sqrt ((1 - individual_accuracy) * 400))
          | _ =>
              b <- np_random_random ;;
              ret (if float_lt b bias_prob then - 6 else 1,
                   sqrt ((1 - individual_accuracy) * 300))
          end ;;
    let (bias, noise_std) := bn : R * R in
    z <- np_random_normal 0 noise_std ;;
    let rating := ground_truth + bias + z in
    let rating := np_clip rating 0 100 in
    ret (ratings ++ [rating])
  else ret ratings.

(** [for _ in range(count)]. *)
Fixpoint agents_loop (k : nat) (agent_type : AgentType)
    (ground_truth : R) (ratings : list R) : M (list R) :=
  match k with
  | O => ret ratings
  | S k' =>
      ratings' <- agent_body agent_type ground_truth ratings ;;
      agents_loop k' agent_type ground_truth ratings'
  end.

(** Body of [for agent_type, count in composition.items()]. *)
Definition type_body (item : AgentType * Z) (ground_truth : R)
    (ratings : list R) : M (list R) :=
  let (agent_type, count) := item in
  if AgentType_eqb agent_type OPT_OUT || (count =? 0)%Z then ret ratings
  else agents_loop (Z.to_nat count) agent_type ground_truth ratings.

(** [for agent_type, count in composition.items()], in the dict's order. *)
Fixpoint types_loop (items : Composition) (ground_truth : R)
    (ratings : list R) : M (list R) :=
  match items with
  | [] => ret ratings
  | item :: rest =>
      ratings' <- type_body item ground_truth ratings ;;
      types_loop rest ground_truth ratings'
  end.

(** The row appended to [results] for one trial. *)
Definition result_row (ground_truth : R) (ratings : list R) : ResultRow :=
  if (0 <? length ratings)%nat then
    let collective_estimate := np_mean ratings in
    {| ground_truth := ground_truth;
       collective_estimate := collective_estimate;
       accuracy := 1 - Rabs (collective_estimate - ground_truth) / 100;
       n_participants := length ratings |}
  else
    {| ground_truth := ground_truth;
       collective_estimate := 50;
       accuracy := 5 / 10;
       n_participants := length ratings |}.

(** Body of [for sim in range(n_simulations)].  Each entry of [results]
    keeps, next to the row, the [ratings] list the row was computed from. *)
Definition trial_body (composition : Composition)
    (results : list (list R * ResultRow)) : M (list (list R * ResultRow)) :=
  ground_truth <- np_random_uniform 20 80 ;;
  ratings <- types_loop composition ground_truth [] ;;
  ret (results ++ [(ratings, result_row ground_truth ratings)]).

Fixpoint trials_loop (k : nat) (composition : Composition)
    (results : list (list R * ResultRow)) : M (list (list R * ResultRow)) :=
  match k with
  | O => ret results
  | S k' =>
      results' <- trial_body composition results ;;
      trials_loop k' composition results'
  end.

(** [pd.DataFrame(results)['accuracy']]: a frame built from an empty list
    has no columns. *)
Definition accuracy_column (rows : list ResultRow) : exception + list R :=
  match rows with
  | [] => inl (KeyError "accuracy"%string)
  | _ :: _ => inr (map accuracy rows)
  end.

Definition default_composition : Composition :=
  [(INTRINSIC, 10%Z); (FREE_RIDER, 5%Z)].

(** The run up to the end of the trial loop: the entries of [results]. *)
Definition run_trials (n_simulations : Z)
    (composition : option Composition) : M (list (list R * ResultRow)) :=
  let composition :=
    match composition with None => default_composition | Some c => c end in
  np_random_seed 42 ;;;
  trials_loop (Z.to_nat n_simulations) composition [].

Definition simulate_collective_intelligence (n_simulations : Z)
    (composition : option Composition) : M (exception + Summary) :=
  results <- run_trials n_simulations composition ;;
  let composition :=
    match composition with None => default_composition | Some c => c end in
  let results_df := map snd results in
  match accuracy_column results_df with
  | inl e => ret (inl e)
  | inr col =>
      ret (inr {| mean_accuracy := series_mean col;
                  std_accuracy := series_std col;
                  data := results_df;
                  composition_of := composition |})
  end.

End Engine.

Arguments mt {G} _.
Arguments draws {G} _.
Arguments ret {G A} _ _.
Arguments bind {G A B} _ _ _.
Arguments np_random_seed G n _ : assert.
Arguments np_random_random G _ : assert.
Arguments np_random_uniform G low high _ : assert.
Arguments np_random_normal G loc scale _ : assert.

(** ** A concrete random source

    A small counter-driven generator, used to run the simulation on concrete
    inputs: the state is the number of calls made since seeding (plus the
    seed), [random()] cycles through 0, 1/4, 1/2, 3/4, [uniform] scales that
    value to its interval, and [normal] returns [loc - scale], [loc] or
    [loc + scale] in turn. *)

Definition cycle_random (n : nat) : R * nat :=
  (INR (n mod 4) / 4, S n).

Definition cycle_uniform (low high : R) (n : nat) : R * nat :=
  (low + (high - low) * (INR (n mod 4) / 4), S n).

Definition cycle_normal (loc scale : R) (n : nat) : R * nat :=
  (loc + scale * (INR ((n + 1) mod 3) - 1), S n).

Definition cycle_generator : Generator.
Proof.
  refine {| gen_state := nat;
            gen_seed := Z.to_nat;
            gen_random := cycle_random;
            gen_uniform := cycle_uniform;
            gen_normal := cycle_normal |}.
  - intro s. unfold cycle_random, fst.
    assert (H : (s mod 4 < 4)%nat) by (apply Nat.mod_upper_bound; lia).
    assert (H0 : 0 <= INR (s mod 4)) by apply pos_INR.
    apply lt_INR in H. replace (INR 4) with 4 in H by (simpl; lra).
    generalize dependent (INR (s mod 4)). intros. lra.
  - intros lo hi s Hle. unfold cycle_uniform, fst.
    assert (H : (s mod 4 < 4)%nat) by (apply Nat.mod_upper_bound; lia).
    assert (H0 : 0 <= INR (s mod 4)) by apply pos_INR.
    apply lt_INR in H. replace (INR 4) with 4 in H by (simpl; lra).
    generalize dependent (INR (s mod 4)). intros. nra.
Defined.

(** A module state of the concrete generator: generator state [n], history
    [d]. *)
Definition cycle_state (n : nat) (d : list draw) : np_state cycle_generator :=
  Build_np_state cycle_generator n d.

(** The module state before the program is called: no call made yet. *)
Definition fresh_state (n : nat) : np_state cycle_generator :=
  cycle_state n [].

(** The module's table with both base participation rates raised to 1, for
    concrete runs in which every agent participates. *)
Definition certain_params : Params := {|
  intrinsic_base_participation := 1;
  intrinsic_incentive_participation := 1;
  freerider_base_participation := 1;
  freerider_incentive_participation := 1;
  intrinsic_accuracy := 29 / 100;
  intrinsic_accuracy_se := 8 / 100;
  freerider_accuracy := 46 / 100;
  freerider_accuracy_se := 12 / 100;
  intrinsic_positive_bias := 78 / 100;
  freerider_negative_bias := 82 / 100
|}.

(** ** Predicates used in the statements *)

(** A rating lies in the rating scale. *)
Definition on_scale (r : R) : Prop := 0 <= r <= 100.

(** An entry of [results] is the row of a trial whose ground truth is in
    [20, 80] and whose ratings are on the scale. *)
Definition trial_entry (e : list R * ResultRow) : Prop :=
  exists gt : R,
    20 <= gt <= 80 /\ Forall on_scale (fst e) /\ snd e = result_row gt (fst e).

(** An entry of [results] produced by one trial on [comp]: the ratings are
    those the loop over the composition collects for a ground truth of
    [20, 80], and the row is the one computed from them. *)
Definition trial_of (G : Generator) (P : Params) (comp : Composition)
    (e : list R * ResultRow) : Prop :=
  exists (gt : R) (s : np_state G),
    20 <= gt <= 80 /\
    fst e = fst (types_loop G P comp gt [] s) /\
    snd e = result_row gt (fst e).

(** The call raises an exception of class [cls]. *)
Definition reports (cls : string) (r : exception + Summary) : Prop :=
  exists e : exception, r = inl e /\ exc_class e = cls.

(** The call returns a summary whose mean accuracy is a number of [0, 1] and
    whose standard deviation is a number that is not negative. *)
Definition summary_in_range (r : exception + Summary) : Prop :=
  exists (summary : Summary) (m sd : R),
    r = inr summary /\
    mean_accuracy summary = Num m /\ 0 <= m <= 1 /\
    std_accuracy summary = Num sd /\ 0 <= sd.

(** A computation whose value and final generator state depend only on the
    generator state it starts from, not on the recorded history. *)
Definition history_blind {G : Generator} {A : Type} (m : M G A) : Prop :=
  forall s1 s2 : np_state G,
    mt s1 = mt s2 ->
    fst (m s1) = fst (m s2) /\ mt (snd (m s1)) = mt (snd (m s2)).

(** The composition a call simulates. *)
Definition resolve (composition : option Composition) : Composition :=
  match composition with None => default_composition | Some c => c end.

(** ** Theory-of-mind models *)

(** [reliability_assessment(observer_type, source_type)]. *)
Definition reliability_assessment (p : Params)
    (observer_type source_type : AgentType) : R :=
  let source_participation := participation_model p source_type false in
  match observer_type with
  | FREE_RIDER =>
      let reliability := 1 - source_participation * (7 / 10) in
      Rmax (1 / 10) reliability
  | INTRINSIC =>
      let reliability := 3 / 10 + source_participation * (6 / 10) in
      Rmin (9 / 10) reliability
  | OPT_OUT => 5 / 10
  end.

(** [meta_cognitive_reasoning(agent_type, other_type)].  The inner tests
    have a plain [else], which an [OPT_OUT] agent also takes. *)
Definition meta_cognitive_reasoning (p : Params)
    (agent_type other_type : AgentType) : R :=
  let own_participation := participation_model p agent_type false in
  match other_type with
  | FREE_RIDER =>
      match agent_type with
      | INTRINSIC => 4 / 10 - own_participation * (3 / 10)
      | _ => 7 / 10 + (1 - own_participation) * (2 / 10)
      end
  | INTRINSIC =>
      match agent_type with
      | FREE_RIDER => 3 / 10 + own_participation * (4 / 10)
      | _ => 6 / 10 + own_participation * (3 / 10)
      end
  | OPT_OUT => 5 / 10
  end.

(** ** Comparison of populations *)

(** The dict [compositions] of [compare_populations], in insertion order. *)
Definition compositions : list (string * Composition) :=
  [("Homogeneous (Intrinsic)"%string, [(INTRINSIC, 15%Z); (FREE_RIDER, 0%Z)]);
   ("Homogeneous (Free Rider)"%string, [(INTRINSIC, 0%Z); (FREE_RIDER, 15%Z)]);
   ("Mixed (60/40)"%string, [(INTRINSIC, 9%Z); (FREE_RIDER, 6%Z)]);
   ("Mixed (50/50)"%string, [(INTRINSIC, 7%Z); (FREE_RIDER, 7%Z)])].

(** [for name, composition in compositions.items()]: each simulation runs
    500 trials; an exception of a simulation ends the loop. *)
Fixpoint compare_loop (G : Generator) (p : Params)
    (items : list (string * Composition)) (results : list (string * Summary))
    : M G (exception + list (string * Summary)) :=
  match items with
  | [] => ret (inr results)
  | (name, composition) :: rest =>
      bind (simulate_collective_intelligence G p 500 (Some composition))
        (fun r =>
           match r with
           | inl e => ret (inl e)
           | inr summary => compare_loop G p rest (results ++ [(name, summary)])
           end)
  end.

Definition compare_populations (G : Generator) (p : Params)
    : M G (exception + list (string * Summary)) :=
  compare_loop G p compositions [].

(** ** Measures used in the further properties *)

(** The entries of a composition that put agents in a trial: the type is
    not [OPT_OUT] and the count is positive. *)
Definition active_entry (item : AgentType * Z) : bool :=
  negb (AgentType_eqb (fst item) OPT_OUT) && (0 <? snd item)%Z.

(** The number of agents that make a participation draw in each trial. *)
Definition active_agents (comp : Composition) : nat :=
  list_sum (map (fun item => Z.to_nat (snd item)) (filter active_entry comp)).

(** The participants of a table, all trials together. *)
Definition total_participants (rows : list ResultRow) : nat :=
  list_sum (map n_participants rows).

(** The ground truth of the first trial of a returned table. *)
Definition first_ground_truth (r : exception + Summary) : option R :=
  match r with
  | inl _ => None
  | inr summary => option_map ground_truth (hd_error (data summary))
  end.

(** Every base participation rate of the table is a probability. *)
Definition rates_are_probabilities (p : Params) : Prop :=
  0 <= intrinsic_base_participation p <= 1 /\
  0 <= freerider_base_participation p <= 1.

(** * Properties *)

(** ** Arithmetic of the aggregation *)

Lemma float_lt_true (x y : R) : x < y -> float_lt x y = true.
Proof. intro H. unfold float_lt. destruct (Rlt_dec x y); [reflexivity | contradiction]. Qed.

Lemma float_lt_false (x y : R) : y <= x -> float_lt x y = false.
Proof. intro H. unfold float_lt. destruct (Rlt_dec x y); [lra | reflexivity]. Qed.

Lemma np_clip_range (x lo hi : R) : lo <= hi -> lo <= np_clip x lo hi <= hi.
Proof.
  intro H. unfold np_clip, Rmin, Rmax.
  destruct (Rle_dec x lo); destruct (Rle_dec _ hi); lra.
Qed.

Lemma np_clip_inside (x lo hi : R) : lo <= x <= hi -> np_clip x lo hi = x.
Proof.
  intro H. unfold np_clip, Rmin, Rmax.
  destruct (Rle_dec x lo); destruct (Rle_dec _ hi); lra.
Qed.

Lemma sum_list_app (xs ys : list R) :
  sum_list (xs ++ ys) = sum_list xs + sum_list ys.
Proof.
  induction xs as [| x xs IH]; simpl.
  - lra.
  - fold (sum_list (xs ++ ys)). fold (sum_list xs). rewrite IH. lra.
Qed.

(** A sum of values of [lo, hi] lies between [n * lo] and [n * hi]. *)
Lemma sum_list_bounds (lo hi : R) (xs : list R) :
  Forall (fun x => lo <= x <= hi) xs ->
  INR (length xs) * lo <= sum_list xs <= INR (length xs) * hi.
Proof.
  induction 1 as [| x xs Hx _ IH].
  - simpl. lra.
  - change (sum_list (x :: xs)) with (x + sum_list xs).
    change (length (x :: xs)) with (S (length xs)).
    rewrite S_INR. lra.
Qed.

Lemma length_pos_INR {A : Type} (xs : list A) : xs <> [] -> 0 < INR (length xs).
Proof.
  intro H. destruct xs as [| a xs]; [contradiction |].
  apply lt_0_INR. simpl. lia.
Qed.

(** The mean of values of [lo, hi] lies in [lo, hi]. *)
Lemma np_mean_bounds (lo hi : R) (xs : list R) :
  xs <> [] ->
  Forall (fun x => lo <= x <= hi) xs ->
  lo <= np_mean xs <= hi.
Proof.
  intros Hne Hall.
  pose proof (length_pos_INR xs Hne) as Hn.
  pose proof (sum_list_bounds lo hi xs Hall) as [Hlo Hhi].
  unfold np_mean. split.
  - apply Rmult_le_reg_r with (INR (length xs)); [exact Hn |].
    unfold Rdiv. rewrite Rmult_assoc, Rinv_l by lra. lra.
  - apply Rmult_le_reg_r with (INR (length xs)); [exact Hn |].
    unfold Rdiv. rewrite Rmult_assoc, Rinv_l by lra. lra.
Qed.

Lemma sum_list_const (c : R) (xs : list R) :
  Forall (fun x => x = c) xs -> sum_list xs = INR (length xs) * c.
Proof.
  induction 1 as [| x xs Hx _ IH].
  - simpl. lra.
  - change (sum_list (x :: xs)) with (x + sum_list xs).
    change (length (x :: xs)) with (S (length xs)).
    rewrite S_INR, IH, Hx. lra.
Qed.

Lemma np_mean_const (c : R) (xs : list R) :
  xs <> [] -> Forall (fun x => x = c) xs -> np_mean xs = c.
Proof.
  intros Hne Hall. unfold np_mean.
  rewrite (sum_list_const c xs Hall).
  pose proof (length_pos_INR xs Hne). field. lra.
Qed.

(** ** The row of one trial *)

Lemma result_row_nonempty (gt : R) (ratings : list R) :
  ratings <> [] ->
  result_row gt ratings =
    {| ground_truth := gt;
       collective_estimate := np_mean ratings;
       accuracy := 1 - Rabs (np_mean ratings - gt) / 100;
       n_participants := length ratings |}.
Proof.
  intro H. unfold result_row.
  destruct ratings as [| r rs]; [contradiction | reflexivity].
Qed.

Lemma result_row_empty (gt : R) :
  result_row gt [] =
    {| ground_truth := gt; collective_estimate := 50;
       accuracy := 5 / 10; n_participants := 0 |}.
Proof. reflexivity. Qed.

(** With the ground truth in [20, 80] and the ratings in [0, 100], the
    accuracy of the row is in [0.2, 1]. *)
Lemma result_row_accuracy_bounds (gt : R) (ratings : list R) :
  20 <= gt <= 80 ->
  Forall (fun r => 0 <= r <= 100) ratings ->
  2 / 10 <= accuracy (result_row gt ratings) <= 1.
Proof.
  intros Hgt Hall.
  destruct ratings as [| r rs].
  - rewrite result_row_empty. simpl. lra.
  - rewrite result_row_nonempty by discriminate. simpl accuracy.
    pose proof (np_mean_bounds 0 100 (r :: rs) ltac:(discriminate) Hall) as Hm.
    pose proof (Rabs_pos (np_mean (r :: rs) - gt)) as Hp.
    assert (Hab : Rabs (np_mean (r :: rs) - gt) <= 80).
    { unfold Rabs. destruct (Rcase_abs _); lra. }
    lra.
Qed.

(** ** One agent *)

Section AgentFacts.

Variable G : Generator.
Variable P : Params.

(** An agent whose participation draw fails leaves the ratings alone and
    has made one call. *)
Lemma agent_body_abstains (t : AgentType) (gt : R) (ratings : list R)
    (s : np_state G) :
  float_lt (fst (gen_random G (mt s))) (participation_model P t false) = false ->
  agent_body G P t gt ratings s =
    (ratings,
     {| mt := snd (gen_random G (mt s)); draws := draws s ++ [DrawRandom] |}).
Proof.
  intro H. unfold agent_body, bind, np_random_random.
  destruct (gen_random G (mt s)) as [u g]. simpl in H. rewrite H.
  reflexivity.
Qed.

(** An agent whose participation draw succeeds makes the bias call and the
    noise call, and appends the clipped rating. *)
Lemma agent_body_participates (t : AgentType) (gt : R) (ratings : list R)
    (s : np_state G) :
  let u := fst (gen_random G (mt s)) in
  let g1 := snd (gen_random G (mt s)) in
  let b := fst (gen_random G g1) in
  let g2 := snd (gen_random G g1) in
  let bias :=
    match t with
    | INTRINSIC => if float_lt b (bias_model P t) then 8 else - 2
    | _ => if float_lt b (bias_model P t) then - 6 else 1
    end in
  let noise_std :=
    match t with
    | INTRINSIC => sqrt ((1 - accuracy_model P t) * 400)
    | _ => sqrt ((1 - accuracy_model P t) * 300)
    end in
  let z := fst (gen_normal G 0 noise_std g2) in
  let g3 := snd (gen_normal G 0 noise_std g2) in
  float_lt u (participation_model P t false) = true ->
  agent_body G P t gt ratings s =
    (ratings ++ [np_clip (gt + bias + z) 0 100],
     {| mt := g3;
        draws := draws s ++ [DrawRandom; DrawRandom; DrawNormal 0 noise_std] |}).
Proof.
  intros u g1 b g2 bias noise_std z g3 H.
  subst u g1 b g2 bias noise_std z g3.
  unfold agent_body, bind, np_random_random, np_random_normal, ret.
  destruct (gen_random G (mt s)) as [u g1]. simpl in *. rewrite H.
  destruct t; simpl;
    destruct (gen_random G g1) as [b g2]; simpl;
    destruct (gen_normal G 0 _ g2) as [z g3]; simpl;
    rewrite <- !app_assoc; reflexivity.
Qed.

(** Whatever the branch, an agent appends at most one rating, and that
    rating is on the scale. *)
Lemma agent_body_appends (t : AgentType) (gt : R) (ratings : list R)
    (s : np_state G) :
  exists extra : list R,
    fst (agent_body G P t gt ratings s) = ratings ++ extra /\
    Forall on_scale extra.
Proof.
  destruct (float_lt (fst (gen_random G (mt s))) (participation_model P t false))
    eqn:E.
  - rewrite (agent_body_participates t gt ratings s E). simpl.
    eexists. split; [reflexivity |].
    constructor; [| constructor].
    apply np_clip_range. lra.
  - rewrite (agent_body_abstains t gt ratings s E). simpl.
    exists []. rewrite app_nil_r. split; [reflexivity | constructor].
Qed.

Lemma agents_loop_appends (k : nat) (t : AgentType) (gt : R) :
  forall (ratings : list R) (s : np_state G),
  exists extra : list R,
    fst (agents_loop G P k t gt ratings s) = ratings ++ extra /\
    Forall on_scale extra.
Proof.
  induction k as [| k IH]; intros ratings s.
  - exists []. simpl. rewrite app_nil_r. split; [reflexivity | constructor].
  - simpl. unfold bind.
    destruct (agent_body_appends t gt ratings s) as [e1 [H1 F1]].
    destruct (agent_body G P t gt ratings s) as [r1 s1]. simpl in H1. subst r1.
    destruct (IH (ratings ++ e1) s1) as [e2 [H2 F2]].
    exists (e1 ++ e2). rewrite H2, app_assoc. split; [reflexivity |].
    apply Forall_app. split; assumption.
Qed.

Lemma type_body_appends (item : AgentType * Z) (gt : R) (ratings : list R)
    (s : np_state G) :
  exists extra : list R,
    fst (type_body G P item gt ratings s) = ratings ++ extra /\
    Forall on_scale extra.
Proof.
  destruct item as [t c]. unfold type_body.
  destruct (AgentType_eqb t OPT_OUT || (c =? 0)%Z).
  - exists []. simpl. rewrite app_nil_r. split; [reflexivity | constructor].
  - apply agents_loop_appends.
Qed.

Lemma types_loop_appends (items : Composition) (gt : R) :
  forall (ratings : list R) (s : np_state G),
  exists extra : list R,
    fst (types_loop G P items gt ratings s) = ratings ++ extra /\
    Forall on_scale extra.
Proof.
  induction items as [| item rest IH]; intros ratings s.
  - exists []. simpl. rewrite app_nil_r. split; [reflexivity | constructor].
  - simpl. unfold bind.
    destruct (type_body_appends item gt ratings s) as [e1 [H1 F1]].
    destruct (type_body G P item gt ratings s) as [r1 s1]. simpl in H1. subst r1.
    destruct (IH (ratings ++ e1) s1) as [e2 [H2 F2]].
    exists (e1 ++ e2). rewrite H2, app_assoc. split; [reflexivity |].
    apply Forall_app. split; assumption.
Qed.

End AgentFacts.

(** ** Trials and the summary *)

Section TrialFacts.

Variable G : Generator.
Variable P : Params.

Lemma trial_of_entry (comp : Composition) (e : list R * ResultRow) :
  trial_of G P comp e -> trial_entry e.
Proof.
  intros [gt [s [Hgt [Hr Hrow]]]].
  exists gt. repeat split; try tauto.
  rewrite Hr.
  destruct (types_loop_appends G P comp gt [] s) as [extra [He Hs]].
  rewrite He. exact Hs.
Qed.

Lemma trial_body_entry (comp : Composition)
    (results : list (list R * ResultRow)) (s : np_state G) :
  exists e : list R * ResultRow,
    fst (trial_body G P comp results s) = results ++ [e] /\
    trial_of G P comp e.
Proof.
  unfold trial_body, bind, np_random_uniform, ret.
  pose proof (gen_uniform_range G 20 80 (mt s) ltac:(lra)) as Hgt.
  destruct (gen_uniform G 20 80 (mt s)) as [gt g]. simpl in Hgt.
  match goal with
  | |- context [types_loop G P comp gt [] ?s0] =>
      set (s1 := s0);
      destruct (types_loop G P comp gt [] s1) as [ratings s2] eqn:E
  end.
  simpl. eexists. split; [reflexivity |].
  exists gt, s1. rewrite E. simpl. auto.
Qed.

Lemma trials_loop_entries (k : nat) (comp : Composition) :
  forall (results : list (list R * ResultRow)) (s : np_state G),
  exists new : list (list R * ResultRow),
    fst (trials_loop G P k comp results s) = results ++ new /\
    Forall (trial_of G P comp) new /\ length new = k.
Proof.
  induction k as [| k IH]; intros results s.
  - exists []. simpl. rewrite app_nil_r. auto.
  - simpl. unfold bind.
    destruct (trial_body_entry comp results s) as [e [H1 He]].
    destruct (trial_body G P comp results s) as [r1 s1]. simpl in H1. subst r1.
    destruct (IH (results ++ [e]) s1) as [new [H2 [F2 L2]]].
    exists (e :: new). rewrite H2, <- app_assoc. simpl.
    repeat split; [constructor; assumption | lia].
Qed.

(** The trial loop runs [n_simulations] trials (none for a count that is
    not positive), each a trial on the composition. *)
Lemma run_trials_trials (n : Z) (composition : option Composition)
    (s : np_state G) :
  Forall (trial_of G P (resolve composition))
    (fst (run_trials G P n composition s)) /\
  length (fst (run_trials G P n composition s)) = Z.to_nat n.
Proof.
  unfold run_trials, bind, np_random_seed.
  match goal with
  | |- context [trials_loop G P ?k ?c [] ?s0] =>
      destruct (trials_loop_entries k c [] s0) as [new [H [F L]]]
  end.
  rewrite H. simpl. auto.
Qed.

Lemma run_trials_entries (n : Z) (composition : option Composition)
    (s : np_state G) :
  Forall trial_entry (fst (run_trials G P n composition s)) /\
  length (fst (run_trials G P n composition s)) = Z.to_nat n.
Proof.
  destruct (run_trials_trials n composition s) as [F L].
  split; [| exact L].
  eapply Forall_impl; [| exact F].
  intros e. apply trial_of_entry.
Qed.

(** The simulation is the trial loop followed by the summary of its rows. *)
Lemma simulate_after_trials (n : Z) (composition : option Composition)
    (s : np_state G) :
  simulate_collective_intelligence G P n composition s =
    (match accuracy_column (map snd (fst (run_trials G P n composition s))) with
     | inl e => inl e
     | inr col =>
         inr {| mean_accuracy := series_mean col;
                std_accuracy := series_std col;
                data := map snd (fst (run_trials G P n composition s));
                composition_of := resolve composition |}
     end,
     snd (run_trials G P n composition s)).
Proof.
  unfold simulate_collective_intelligence, bind.
  destruct (run_trials G P n composition s) as [results s']. simpl.
  destruct (accuracy_column (map snd results)); reflexivity.
Qed.

(** With at least one trial the summary exists. *)
Lemma simulate_returns (n : Z) (composition : option Composition)
    (s : np_state G) :
  (1 <= n)%Z ->
  let rows := map snd (fst (run_trials G P n composition s)) in
  rows <> [] /\
  simulate_collective_intelligence G P n composition s =
    (inr {| mean_accuracy := Num (np_mean (map accuracy rows));
            std_accuracy := series_std (map accuracy rows);
            data := rows;
            composition_of := resolve composition |},
     snd (run_trials G P n composition s)).
Proof.
  intros Hn rows.
  destruct (run_trials_entries n composition s) as [_ Hlen].
  assert (Hne : rows <> []).
  { subst rows. intro E. apply (f_equal (@length _)) in E.
    rewrite length_map, Hlen in E. simpl in E. lia. }
  split; [exact Hne |].
  rewrite simulate_after_trials. fold rows.
  destruct rows as [| r rs]; [contradiction | reflexivity].
Qed.

Lemma trial_entry_accuracy (e : list R * ResultRow) :
  trial_entry e -> 2 / 10 <= accuracy (snd e) <= 1.
Proof.
  intros [gt [Hgt [Hs Hrow]]]. rewrite Hrow.
  apply result_row_accuracy_bounds; assumption.
Qed.

(** Every accuracy in the table of a run is in [0.2, 1]. *)
Lemma run_trials_accuracies (n : Z) (composition : option Composition)
    (s : np_state G) :
  Forall (fun a => 2 / 10 <= a <= 1)
    (map accuracy (map snd (fst (run_trials G P n composition s)))).
Proof.
  destruct (run_trials_entries n composition s) as [Hall _].
  rewrite map_map. apply Forall_map.
  eapply Forall_impl; [| exact Hall].
  intros e He. apply trial_entry_accuracy. exact He.
Qed.

End TrialFacts.

(** ** Agents that cannot rate *)

Section SilentFacts.

Variable G : Generator.
Variable P : Params.

(** With a participation probability of 0 no agent of the type rates. *)
Lemma agents_loop_silent (k : nat) (t : AgentType) (gt : R) :
  participation_model P t false = 0 ->
  forall (ratings : list R) (s : np_state G),
    fst (agents_loop G P k t gt ratings s) = ratings.
Proof.
  intro Hrate. induction k as [| k IH]; intros ratings s.
  - reflexivity.
  - simpl. unfold bind.
    rewrite agent_body_abstains.
    + apply IH.
    + rewrite Hrate. apply float_lt_false.
      apply (gen_random_range G (mt s)).
Qed.

(** An entry contributes nothing when its type is [OPT_OUT], its count is
    not positive, or its participation probability is 0. *)
Lemma type_body_silent (t : AgentType) (c : Z) (gt : R) (ratings : list R)
    (s : np_state G) :
  t = OPT_OUT \/ (c <= 0)%Z \/ participation_model P t false = 0 ->
  fst (type_body G P (t, c) gt ratings s) = ratings.
Proof.
  intro H. unfold type_body.
  destruct (AgentType_eqb t OPT_OUT || (c =? 0)%Z) eqn:E; [reflexivity |].
  destruct H as [H | [H | H]].
  - subst t. discriminate E.
  - replace (Z.to_nat c) with 0%nat by lia. reflexivity.
  - apply agents_loop_silent. exact H.
Qed.

Lemma types_loop_silent (items : Composition) (gt : R) :
  (forall t c, In (t, c) items ->
     t = OPT_OUT \/ (c <= 0)%Z \/ participation_model P t false = 0) ->
  forall (ratings : list R) (s : np_state G),
    fst (types_loop G P items gt ratings s) = ratings.
Proof.
  induction items as [| [t c] rest IH]; intros H ratings s.
  - reflexivity.
  - cbn [types_loop]. unfold bind.
    pose proof (type_body_silent t c gt ratings s (H t c (or_introl eq_refl)))
      as H1.
    destruct (type_body G P (t, c) gt ratings s) as [r1 s1]. simpl in H1.
    subst r1. apply IH. intros t' c' Hin. apply H. right. exact Hin.
Qed.

(** An entry whose type is [OPT_OUT] or whose count is not positive also
    makes no call on the generator. *)
Lemma type_body_skips (t : AgentType) (c : Z) (gt : R) (ratings : list R)
    (s : np_state G) :
  t = OPT_OUT \/ (c <= 0)%Z ->
  type_body G P (t, c) gt ratings s = (ratings, s).
Proof.
  intro H. unfold type_body.
  destruct (AgentType_eqb t OPT_OUT || (c =? 0)%Z) eqn:E; [reflexivity |].
  destruct H as [H | H].
  - subst t. discriminate E.
  - replace (Z.to_nat c) with 0%nat by lia. reflexivity.
Qed.

(** A trial in which nothing was rated has the fallback row. *)
Lemma trial_of_silent (comp : Composition) (e : list R * ResultRow) :
  (forall t c, In (t, c) comp ->
     t = OPT_OUT \/ (c <= 0)%Z \/ participation_model P t false = 0) ->
  trial_of G P comp e ->
  fst e = [] /\ collective_estimate (snd e) = 50 /\
  accuracy (snd e) = 5 / 10 /\ n_participants (snd e) = 0%nat.
Proof.
  intros H [gt [s [Hgt [Hr Hrow]]]].
  rewrite types_loop_silent in Hr by exact H.
  rewrite Hrow, Hr. rewrite result_row_empty. simpl. auto.
Qed.

End SilentFacts.

(** ** The summary statistics *)

Lemma series_std_single (xs : list R) :
  length xs = 1%nat -> series_std xs = NaN.
Proof. intro H. unfold series_std. rewrite H. reflexivity. Qed.

Lemma series_std_number (xs : list R) :
  (2 <= length xs)%nat ->
  exists sd : R, series_std xs = Num sd /\ 0 <= sd.
Proof.
  intro H. unfold series_std.
  destruct (length xs <=? 1)%nat eqn:E.
  - apply Nat.leb_le in E. lia.
  - eexists. split; [reflexivity | apply sqrt_pos].
Qed.

(** ** Independence from the recorded history *)

Section BlindFacts.

Variable G : Generator.
Variable P : Params.

Lemma blind_ret {A : Type} (a : A) : history_blind (ret (G := G) a).
Proof. intros s1 s2 H. simpl. auto. Qed.

Lemma blind_bind {A B : Type} (m : M G A) (k : A -> M G B) :
  history_blind m -> (forall a, history_blind (k a)) ->
  history_blind (bind m k).
Proof.
  intros Hm Hk s1 s2 H. unfold bind.
  destruct (Hm s1 s2 H) as [Hv Hs].
  destruct (m s1) as [a1 t1], (m s2) as [a2 t2]. simpl in Hv, Hs. subst a2.
  apply Hk. exact Hs.
Qed.

Lemma blind_random : history_blind (np_random_random G).
Proof.
  intros s1 s2 H. unfold np_random_random. rewrite H.
  destruct (gen_random G (mt s2)). simpl. auto.
Qed.

Lemma blind_uniform (low high : R) :
  history_blind (np_random_uniform G low high).
Proof.
  intros s1 s2 H. unfold np_random_uniform. rewrite H.
  destruct (gen_uniform G low high (mt s2)). simpl. auto.
Qed.

Lemma blind_normal (loc scale : R) :
  history_blind (np_random_normal G loc scale).
Proof.
  intros s1 s2 H. unfold np_random_normal. rewrite H.
  destruct (gen_normal G loc scale (mt s2)). simpl. auto.
Qed.

Lemma blind_agent_body (t : AgentType) (gt : R) (ratings : list R) :
  history_blind (agent_body G P t gt ratings).
Proof.
  unfold agent_body.
  apply blind_bind; [apply blind_random |]. intro u.
  destruct (float_lt u _); [| apply blind_ret].
  apply blind_bind.
  - destruct t; (apply blind_bind; [apply blind_random | intro; apply blind_ret]).
  - intros [bias noise_std].
    apply blind_bind; [apply blind_normal | intro; apply blind_ret].
Qed.

Lemma blind_agents_loop (k : nat) (t : AgentType) (gt : R) :
  forall ratings : list R, history_blind (agents_loop G P k t gt ratings).
Proof.
  induction k as [| k IH]; intro ratings; simpl.
  - apply blind_ret.
  - apply blind_bind; [apply blind_agent_body | exact IH].
Qed.

Lemma blind_type_body (item : AgentType * Z) (gt : R) (ratings : list R) :
  history_blind (type_body G P item gt ratings).
Proof.
  destruct item as [t c]. unfold type_body.
  destruct (_ || _); [apply blind_ret | apply blind_agents_loop].
Qed.

Lemma blind_types_loop (items : Composition) (gt : R) :
  forall ratings : list R, history_blind (types_loop G P items gt ratings).
Proof.
  induction items as [| item rest IH]; intro ratings; simpl.
  - apply blind_ret.
  - apply blind_bind; [apply blind_type_body | exact IH].
Qed.

Lemma blind_trial_body (comp : Composition)
    (results : list (list R * ResultRow)) :
  history_blind (trial_body G P comp results).
Proof.
  unfold trial_body.
  apply blind_bind; [apply blind_uniform |]. intro gt.
  apply blind_bind; [apply blind_types_loop | intro; apply blind_ret].
Qed.

Lemma blind_trials_loop (k : nat) (comp : Composition) :
  forall results, history_blind (trials_loop G P k comp results).
Proof.
  induction k as [| k IH]; intro results; simpl.
  - apply blind_ret.
  - apply blind_bind; [apply blind_trial_body | exact IH].
Qed.

(** Seeding forgets the generator state the call started from. *)
Lemma run_trials_reseeds (n : Z) (composition : option Composition)
    (s1 s2 : np_state G) :
  fst (run_trials G P n composition s1) = fst (run_trials G P n composition s2) /\
  mt (snd (run_trials G P n composition s1)) =
    mt (snd (run_trials G P n composition s2)).
Proof.
  unfold run_trials, bind, np_random_seed.
  apply blind_trials_loop. reflexivity.
Qed.

End BlindFacts.

(** ** Runs on the concrete generator *)

Lemma cycle_uniform_step (low high : R) (n : nat) (d : list draw) :
  np_random_uniform cycle_generator low high (cycle_state n d) =
    (low + (high - low) * (INR (n mod 4) / 4),
     cycle_state (S n) (d ++ [DrawUniform low high])).
Proof. reflexivity. Qed.

(** From generator state 43 an intrinsic agent participates (draw 3/4), takes
    the offset +8 (draw 0) and gets no noise. *)
Lemma cycle_agent_43 (ratings : list R) (d : list draw) :
  agent_body cycle_generator EMPIRICAL_PARAMS INTRINSIC 50 ratings
    (cycle_state 43 d) =
  (ratings ++ [58],
   cycle_state 46
     (d ++ [DrawRandom; DrawRandom; DrawNormal 0 (sqrt ((1 - 29 / 100) * 400))])).
Proof.
  rewrite agent_body_participates.
  - cbn [mt draws gen_random gen_normal cycle_generator fst snd cycle_state
         cycle_random cycle_normal bias_model accuracy_model EMPIRICAL_PARAMS
         intrinsic_positive_bias intrinsic_accuracy].
    change (44 mod 4)%nat with 0%nat.
    change ((45 + 1) mod 3)%nat with 1%nat.
    rewrite float_lt_true by (simpl; lra).
    rewrite np_clip_inside by (simpl; lra).
    unfold cycle_state. repeat f_equal. simpl. lra.
  - cbn [mt gen_random cycle_generator fst cycle_random participation_model
         cycle_state EMPIRICAL_PARAMS intrinsic_base_participation].
    change (43 mod 4)%nat with 3%nat.
    apply float_lt_true. simpl. lra.
Qed.

(** One trial of one intrinsic agent: ground truth 50, one rating 58. *)
Lemma cycle_run_one_intrinsic :
  run_trials cycle_generator EMPIRICAL_PARAMS 1 (Some [(INTRINSIC, 1%Z)])
    (fresh_state 0) =
  ([([58], {| ground_truth := 50; collective_estimate := 58;
              accuracy := 92 / 100; n_participants := 1 |})],
   cycle_state 46
     [DrawUniform 20 80; DrawRandom; DrawRandom;
      DrawNormal 0 (sqrt ((1 - 29 / 100) * 400))]).
Proof.
  unfold run_trials, bind, np_random_seed.
  change (Z.to_nat 1) with 1%nat.
  change (Build_np_state cycle_generator (gen_seed cycle_generator 42)
            (draws (fresh_state 0)))
    with (cycle_state 42 []).
  unfold trials_loop, trial_body, bind.
  rewrite cycle_uniform_step.
  change (42 mod 4)%nat with 2%nat.
  replace (20 + (80 - 20) * (INR 2 / 4)) with 50 by (simpl; lra).
  unfold types_loop, type_body, bind.
  cbn [AgentType_eqb orb Z.eqb].
  change (Z.to_nat 1) with 1%nat.
  unfold agents_loop, bind.
  rewrite cycle_agent_43.
  unfold ret. cbn [app].
  rewrite result_row_nonempty by discriminate.
  unfold np_mean. simpl sum_list. simpl length.
  replace ((58 + 0) / INR 1) with 58 by (simpl; lra).
  replace (58 - 50) with 8 by lra.
  rewrite Rabs_pos_eq by lra.
  replace (1 - 8 / 100) with (92 / 100) by lra.
  reflexivity.
Qed.

(** One trial of three opted-out agents: ground truth 50, nothing rated. *)
Lemma cycle_run_opt_out :
  run_trials cycle_generator EMPIRICAL_PARAMS 1 (Some [(OPT_OUT, 3%Z)])
    (fresh_state 0) =
  ([([], {| ground_truth := 50; collective_estimate := 50;
            accuracy := 5 / 10; n_participants := 0 |})],
   cycle_state 43 [DrawUniform 20 80]).
Proof.
  unfold run_trials, bind, np_random_seed.
  change (Z.to_nat 1) with 1%nat.
  change (Build_np_state cycle_generator (gen_seed cycle_generator 42)
            (draws (fresh_state 0)))
    with (cycle_state 42 []).
  unfold trials_loop, trial_body, bind.
  rewrite cycle_uniform_step.
  change (42 mod 4)%nat with 2%nat.
  replace (20 + (80 - 20) * (INR 2 / 4)) with 50 by (simpl; lra).
  reflexivity.
Qed.

(** With no trial to run the table is empty and the summary fails on its
    missing column, after the generator was seeded. *)
Lemma simulate_no_trials (G : Generator) (P : Params) (n : Z)
    (composition : option Composition) (s : np_state G) :
  (n <= 0)%Z ->
  simulate_collective_intelligence G P n composition s =
    (inl (KeyError "accuracy"),
     {| mt := gen_seed G 42; draws := draws s |}).
Proof.
  intro H. unfold simulate_collective_intelligence, run_trials, bind,
    np_random_seed.
  replace (Z.to_nat n) with 0%nat by lia. reflexivity.
Qed.

Lemma simulate_data (G : Generator) (P : Params) (n : Z)
    (composition : option Composition) (s : np_state G) (summary : Summary) :
  fst (simulate_collective_intelligence G P n composition s) = inr summary ->
  data summary = map snd (fst (run_trials G P n composition s)).
Proof.
  rewrite simulate_after_trials. simpl.
  destruct (accuracy_column _); [discriminate |].
  intro H. injection H as <-. reflexivity.
Qed.

(** * The claims *)

(** C1. In every trial of a run whose [ratings] list is not empty, the
    collective estimate of the row is the arithmetic mean of the ratings
    (their sum over their number) and the accuracy is
    [1 - |collective_estimate - ground_truth| / 100]; the row is one of the
    rows of the table the simulation returns. *)
Theorem estimate_is_mean_of_ratings (G : Generator) (P : Params) (n : Z)
    (composition : option Composition) (s : np_state G)
    (ratings : list R) (row : ResultRow) :
  In (ratings, row) (fst (run_trials G P n composition s)) ->
  ratings <> [] ->
  collective_estimate row = sum_list ratings / INR (length ratings) /\
  accuracy row = 1 - Rabs (collective_estimate row - ground_truth row) / 100 /\
  (forall summary : Summary,
     fst (simulate_collective_intelligence G P n composition s) = inr summary ->
     In row (data summary)).
Proof.
  intros Hin Hne.
  destruct (run_trials_trials G P n composition s) as [Hall _].
  rewrite Forall_forall in Hall.
  destruct (Hall _ Hin) as [gt [s0 [_ [_ Hrow]]]]. simpl in Hrow.
  rewrite result_row_nonempty in Hrow by exact Hne.
  subst row. simpl. repeat split.
  intros summary Hs. rewrite (simulate_data G P n composition s summary Hs).
  apply (in_map snd) in Hin. exact Hin.
Qed.

Lemma estimate_is_mean_of_ratings_witness :
  let row := {| ground_truth := 50; collective_estimate := 58;
                accuracy := 92 / 100; n_participants := 1 |} in
  In ([58], row)
    (fst (run_trials cycle_generator EMPIRICAL_PARAMS 1
            (Some [(INTRINSIC, 1%Z)]) (fresh_state 0))) /\
  [58] <> [] /\
  collective_estimate row = sum_list [58] / INR (length [58]) /\
  accuracy row = 1 - Rabs (collective_estimate row - ground_truth row) / 100 /\
  (forall summary : Summary,
     fst (simulate_collective_intelligence cycle_generator EMPIRICAL_PARAMS 1
            (Some [(INTRINSIC, 1%Z)]) (fresh_state 0)) = inr summary ->
     In row (data summary)).
Proof.
  intro row.
  assert (Hin : In ([58], row)
            (fst (run_trials cycle_generator EMPIRICAL_PARAMS 1
                    (Some [(INTRINSIC, 1%Z)]) (fresh_state 0)))).
  { rewrite cycle_run_one_intrinsic. left. reflexivity. }
  assert (Hne : [58] <> []) by discriminate.
  split; [exact Hin |]. split; [exact Hne |].
  exact (estimate_is_mean_of_ratings cycle_generator EMPIRICAL_PARAMS 1
           (Some [(INTRINSIC, 1%Z)]) (fresh_state 0) [58] row Hin Hne).
Defined.

(** C2. In every trial of a run whose [ratings] list is empty the collective
    estimate is 50.0 and the accuracy 0.5; and when every type the
    composition includes (with a positive count) has participation
    probability 0, every trial of the run has an empty [ratings] list, hence
    that estimate and that accuracy. *)
Theorem empty_trial_falls_back (G : Generator) (P : Params) (n : Z)
    (composition : option Composition) (s : np_state G) :
  (forall ratings row,
     In (ratings, row) (fst (run_trials G P n composition s)) ->
     ratings = [] ->
     collective_estimate row = 50 /\ accuracy row = 5 / 10) /\
  ((forall t c, In (t, c) (resolve composition) -> (0 < c)%Z ->
      participation_model P t false = 0) ->
   forall ratings row,
     In (ratings, row) (fst (run_trials G P n composition s)) ->
     ratings = [] /\ collective_estimate row = 50 /\ accuracy row = 5 / 10).
Proof.
  destruct (run_trials_trials G P n composition s) as [Hall _].
  rewrite Forall_forall in Hall.
  split.
  - intros ratings row Hin Hemp.
    destruct (Hall _ Hin) as [gt [s0 [_ [_ Hrow]]]]. simpl in Hrow.
    subst ratings row. rewrite result_row_empty. simpl. auto.
  - intros Hzero ratings row Hin.
    assert (Hsil : forall t c, In (t, c) (resolve composition) ->
              t = OPT_OUT \/ (c <= 0)%Z \/ participation_model P t false = 0).
    { intros t c Htc. destruct (Z_lt_le_dec 0 c) as [Hc | Hc].
      - right. right. apply (Hzero t c Htc Hc).
      - right. left. exact Hc. }
    destruct (trial_of_silent G P _ _ Hsil (Hall _ Hin)) as [H1 [H2 [H3 _]]].
    simpl in H1, H2, H3. auto.
Qed.

Lemma empty_trial_falls_back_witness :
  let row := {| ground_truth := 50; collective_estimate := 50;
                accuracy := 5 / 10; n_participants := 0 |} in
  In ([], row)
    (fst (run_trials cycle_generator EMPIRICAL_PARAMS 1
            (Some [(OPT_OUT, 3%Z)]) (fresh_state 0))) /\
  (forall t c, In (t, c) [(OPT_OUT, 3%Z)] -> (0 < c)%Z ->
     participation_model EMPIRICAL_PARAMS t false = 0) /\
  (forall ratings row',
     In (ratings, row')
       (fst (run_trials cycle_generator EMPIRICAL_PARAMS 1
               (Some [(OPT_OUT, 3%Z)]) (fresh_state 0))) ->
     ratings = [] /\ collective_estimate row' = 50 /\ accuracy row' = 5 / 10).
Proof.
  intro row.
  assert (Hzero : forall t c, In (t, c) [(OPT_OUT, 3%Z)] -> (0 < c)%Z ->
            participation_model EMPIRICAL_PARAMS t false = 0).
  { intros t c [H | []] _. injection H as <- <-. reflexivity. }
  split; [| split].
  - rewrite cycle_run_opt_out. left. reflexivity.
  - exact Hzero.
  - exact (proj2 (empty_trial_falls_back cycle_generator EMPIRICAL_PARAMS 1
                    (Some [(OPT_OUT, 3%Z)]) (fresh_state 0)) Hzero).
Defined.

(** C3. With the module's parameters, a participating agent (its
    participation draw [u] is below its participation probability) draws [b]
    for the bias and [z] for the noise, and appends
    [clip(ground_truth + offset + z, 0, 100)], a value of [0, 100].  For
    [INTRINSIC] the offset is +8 when [b < 0.78] and -2 otherwise and [z] is
    drawn with scale [sqrt((1 - 0.29) * 400)]; for [FREE_RIDER] the offset
    is -6 when [b < 0.82] and +1 otherwise and the scale is
    [sqrt((1 - 0.46) * 300)]. *)
Theorem rating_of_participating_agent (G : Generator) (t : AgentType)
    (gt : R) (ratings : list R) (s : np_state G) :
  let u := fst (np_random_random G s) in
  let s1 := snd (np_random_random G s) in
  let b := fst (np_random_random G s1) in
  let s2 := snd (np_random_random G s1) in
  let offset :=
    match t with
    | INTRINSIC => if float_lt b (78 / 100) then 8 else - 2
    | _ => if float_lt b (82 / 100) then - 6 else 1
    end in
  let noise_std :=
    match t with
    | INTRINSIC => sqrt ((1 - 29 / 100) * 400)
    | _ => sqrt ((1 - 46 / 100) * 300)
    end in
  let z := fst (np_random_normal G 0 noise_std s2) in
  let s3 := snd (np_random_normal G 0 noise_std s2) in
  let rating := np_clip (gt + offset + z) 0 100 in
  t = INTRINSIC \/ t = FREE_RIDER ->
  float_lt u (participation_model EMPIRICAL_PARAMS t false) = true ->
  agent_body G EMPIRICAL_PARAMS t gt ratings s = (ratings ++ [rating], s3) /\
  0 <= rating <= 100.
Proof.
  intros u s1 b s2 offset noise_std z s3 rating Ht Hu.
  split; [| apply np_clip_range; lra].
  subst u s1 b s2 offset noise_std z s3 rating.
  unfold agent_body, bind, np_random_random, np_random_normal, ret in *.
  destruct (gen_random G (mt s)) as [u g1]. simpl in *. rewrite Hu.
  destruct Ht as [-> | ->]; simpl;
    destruct (gen_random G g1) as [b g2]; simpl;
    destruct (gen_normal G 0 _ g2) as [z g3]; reflexivity.
Qed.

Lemma rating_of_participating_agent_witness :
  float_lt (fst (np_random_random cycle_generator (cycle_state 43 [])))
    (participation_model EMPIRICAL_PARAMS INTRINSIC false) = true /\
  exists (rating : R) (s3 : np_state cycle_generator),
    agent_body cycle_generator EMPIRICAL_PARAMS INTRINSIC 50 []
      (cycle_state 43 []) = ([] ++ [rating], s3) /\
    0 <= rating <= 100.
Proof.
  assert (Hu : float_lt (fst (np_random_random cycle_generator (cycle_state 43 [])))
                 (participation_model EMPIRICAL_PARAMS INTRINSIC false) = true).
  { apply float_lt_true. simpl. lra. }
  split; [exact Hu |].
  eexists. eexists.
  exact (rating_of_participating_agent cycle_generator INTRINSIC 50 []
           (cycle_state 43 []) (or_introl eq_refl) Hu).
Defined.

(** C4, as stated, fails for a single trial: the sample standard deviation
    of one accuracy is [nan], which is not a number greater than or equal
    to 0. *)
Lemma single_trial_std_is_nan :
  ~ summary_in_range
      (fst (simulate_collective_intelligence cycle_generator EMPIRICAL_PARAMS 1
              None (fresh_state 0))).
Proof.
  intros [summary [m [sd [Hs [_ [_ [Hsd _]]]]]]].
  destruct (simulate_returns cycle_generator EMPIRICAL_PARAMS 1 None
              (fresh_state 0) ltac:(lia)) as [_ Hrun].
  rewrite Hrun in Hs. simpl in Hs. injection Hs as <-. simpl in Hsd.
  rewrite series_std_single in Hsd; [discriminate |].
  rewrite !length_map.
  apply (run_trials_entries cycle_generator EMPIRICAL_PARAMS 1 None).
Qed.

(** C4, amended.  For every composition and every trial count of at least 1
    the simulation returns a summary whose mean accuracy is a number of
    [0, 1]; with at least 2 trials its standard deviation is a number that
    is not negative; with exactly 1 trial its standard deviation is [nan]. *)
Theorem summary_statistics_in_range (G : Generator) (P : Params) (n : Z)
    (composition : option Composition) (s : np_state G) :
  (1 <= n)%Z ->
  exists (summary : Summary) (m : R),
    fst (simulate_collective_intelligence G P n composition s) = inr summary /\
    mean_accuracy summary = Num m /\ 0 <= m <= 1 /\
    ((2 <= n)%Z ->
       summary_in_range
         (fst (simulate_collective_intelligence G P n composition s))) /\
    (n = 1%Z -> std_accuracy summary = NaN).
Proof.
  intro Hn.
  destruct (simulate_returns G P n composition s Hn) as [Hne Hrun].
  destruct (run_trials_entries G P n composition s) as [_ Hlen].
  pose proof (run_trials_accuracies G P n composition s) as Hacc.
  set (rows := map snd (fst (run_trials G P n composition s))) in *.
  assert (Hm : 2 / 10 <= np_mean (map accuracy rows) <= 1).
  { apply np_mean_bounds; [| exact Hacc].
    destruct rows; [contradiction | discriminate]. }
  assert (Hl : length (map accuracy rows) = Z.to_nat n).
  { subst rows. rewrite !length_map. exact Hlen. }
  rewrite Hrun. simpl fst.
  eexists. eexists. split; [reflexivity |]. simpl.
  split; [reflexivity |]. split; [lra |]. split.
  - intro H2.
    destruct (series_std_number (map accuracy rows)) as [sd [Hsd Hpos]];
      [rewrite Hl; lia |].
    eexists. exists (np_mean (map accuracy rows)), sd.
    split; [reflexivity |]. simpl.
    repeat split; try assumption; lra.
  - intros ->. apply series_std_single. rewrite Hl. reflexivity.
Qed.

Lemma summary_statistics_in_range_witness :
  (1 <= 2)%Z /\
  exists (summary : Summary) (m : R),
    fst (simulate_collective_intelligence cycle_generator EMPIRICAL_PARAMS 2
           None (fresh_state 0)) = inr summary /\
    mean_accuracy summary = Num m /\ 0 <= m <= 1 /\
    ((2 <= 2)%Z ->
       summary_in_range
         (fst (simulate_collective_intelligence cycle_generator EMPIRICAL_PARAMS
                 2 None (fresh_state 0)))) /\
    (2%Z = 1%Z -> std_accuracy summary = NaN).
Proof.
  split; [lia |].
  apply (summary_statistics_in_range cycle_generator EMPIRICAL_PARAMS 2 None
           (fresh_state 0)).
  lia.
Defined.

(** C5. Two calls with the same composition and trial count produce the same
    per-trial ground truths and ratings (the entries of [results], rows
    included), the same outcome (summary statistics and table) and leave the
    generator in the same state, whatever the state and the history of
    [np.random] each call starts from: the call seeds the generator itself. *)
Theorem simulation_is_deterministic (G : Generator) (P : Params) (n : Z)
    (composition : option Composition) (s1 s2 : np_state G) :
  fst (run_trials G P n composition s1) = fst (run_trials G P n composition s2) /\
  fst (simulate_collective_intelligence G P n composition s1) =
    fst (simulate_collective_intelligence G P n composition s2) /\
  mt (snd (simulate_collective_intelligence G P n composition s1)) =
    mt (snd (simulate_collective_intelligence G P n composition s2)).
Proof.
  destruct (run_trials_reseeds G P n composition s1 s2) as [Hv Hs].
  split; [exact Hv |].
  rewrite !simulate_after_trials. simpl. rewrite Hv.
  split; [reflexivity | exact Hs].
Qed.

(** C6, as stated, fails for a trial count of 0: the call does not report
    an [InvalidTrialCount] error. *)
Lemma zero_trials_not_rejected :
  ~ reports "InvalidTrialCount"
      (fst (simulate_collective_intelligence cycle_generator EMPIRICAL_PARAMS 0
              None (fresh_state 0))).
Proof.
  rewrite simulate_no_trials by lia.
  intros [e [He Hc]]. simpl in He. injection He as <-.
  discriminate Hc.
Qed.

(** C6, amended.  For every trial count that is not positive the call
    validates nothing: it seeds the generator, runs no trial and produces no
    summary, because reading the accuracy column of the empty table raises
    [KeyError('accuracy')]; no [InvalidTrialCount] error is reported. *)
Theorem nonpositive_trial_count_fails (G : Generator) (P : Params) (n : Z)
    (composition : option Composition) (s : np_state G) :
  (n <= 0)%Z ->
  fst (run_trials G P n composition s) = [] /\
  simulate_collective_intelligence G P n composition s =
    (inl (KeyError "accuracy"), {| mt := gen_seed G 42; draws := draws s |}) /\
  ~ reports "InvalidTrialCount"
      (fst (simulate_collective_intelligence G P n composition s)).
Proof.
  intro Hn. split; [| split].
  - destruct (run_trials_entries G P n composition s) as [_ Hlen].
    replace (Z.to_nat n) with 0%nat in Hlen by lia.
    destruct (fst (run_trials G P n composition s)); [reflexivity | discriminate].
  - apply simulate_no_trials. exact Hn.
  - rewrite simulate_no_trials by exact Hn.
    intros [e [He Hc]]. simpl in He. injection He as <-.
    discriminate Hc.
Qed.

Lemma nonpositive_trial_count_fails_witness :
  (-3 <= 0)%Z /\
  fst (run_trials cycle_generator EMPIRICAL_PARAMS (-3) None (fresh_state 7)) = [] /\
  simulate_collective_intelligence cycle_generator EMPIRICAL_PARAMS (-3) None
    (fresh_state 7) =
    (inl (KeyError "accuracy"),
     {| mt := gen_seed cycle_generator 42; draws := draws (fresh_state 7) |}) /\
  ~ reports "InvalidTrialCount"
      (fst (simulate_collective_intelligence cycle_generator EMPIRICAL_PARAMS
              (-3) None (fresh_state 7))).
Proof.
  split; [lia |].
  apply (nonpositive_trial_count_fails cycle_generator EMPIRICAL_PARAMS (-3)
           None (fresh_state 7)).
  lia.
Defined.

(** C7, as stated, fails: a composition whose counts are all zero, and one
    with a negative count, are both simulated without an
    [InvalidComposition] error. *)
Lemma degenerate_compositions_not_rejected :
  ~ reports "InvalidComposition"
      (fst (simulate_collective_intelligence cycle_generator EMPIRICAL_PARAMS 2
              (Some [(INTRINSIC, 0%Z); (FREE_RIDER, 0%Z)]) (fresh_state 0))) /\
  ~ reports "InvalidComposition"
      (fst (simulate_collective_intelligence cycle_generator EMPIRICAL_PARAMS 2
              (Some [(INTRINSIC, (-1)%Z); (FREE_RIDER, 3%Z)]) (fresh_state 0))).
Proof.
  split.
  - destruct (simulate_returns cycle_generator EMPIRICAL_PARAMS 2
                (Some [(INTRINSIC, 0%Z); (FREE_RIDER, 0%Z)]) (fresh_state 0)
                ltac:(lia)) as [_ Hrun].
    rewrite Hrun. intros [e [He _]]. discriminate He.
  - destruct (simulate_returns cycle_generator EMPIRICAL_PARAMS 2
                (Some [(INTRINSIC, (-1)%Z); (FREE_RIDER, 3%Z)]) (fresh_state 0)
                ltac:(lia)) as [_ Hrun].
    rewrite Hrun. intros [e [He _]]. discriminate He.
Qed.

(** C7, amended.  The composition is not validated.  For every composition
    and every trial count of at least 1 the simulation runs all its trials
    and returns a summary, with no [InvalidComposition] error; an entry
    whose count is zero or negative (or whose type is [OPT_OUT]) adds no
    agent and makes no call on the generator; and when no entry of another
    kind is present, every trial has no participant and the fallback
    estimate 50.0 and accuracy 0.5, so that the mean accuracy is 0.5. *)
Theorem degenerate_composition_is_simulated (G : Generator) (P : Params)
    (n : Z) (composition : option Composition) (s : np_state G) :
  (1 <= n)%Z ->
  exists summary : Summary,
    fst (simulate_collective_intelligence G P n composition s) = inr summary /\
    length (data summary) = Z.to_nat n /\
    ~ reports "InvalidComposition"
        (fst (simulate_collective_intelligence G P n composition s)) /\
    (forall t c gt ratings st,
       t = OPT_OUT \/ (c <= 0)%Z ->
       type_body G P (t, c) gt ratings st = (ratings, st)) /\
    ((forall t c, In (t, c) (resolve composition) -> t = OPT_OUT \/ (c <= 0)%Z) ->
     mean_accuracy summary = Num (5 / 10) /\
     Forall (fun row => collective_estimate row = 50 /\ accuracy row = 5 / 10 /\
                        n_participants row = 0%nat) (data summary)).
Proof.
  intro Hn.
  destruct (simulate_returns G P n composition s Hn) as [Hne Hrun].
  destruct (run_trials_trials G P n composition s) as [Hall Hlen].
  set (rows := map snd (fst (run_trials G P n composition s))) in *.
  rewrite Hrun. simpl fst.
  eexists. split; [reflexivity |]. simpl.
  split; [subst rows; rewrite length_map; exact Hlen |].
  split; [intros [e [He _]]; discriminate He |].
  split; [intros; apply type_body_skips; assumption |].
  intro Hdeg.
  assert (Hrows : Forall (fun row => collective_estimate row = 50 /\
                    accuracy row = 5 / 10 /\ n_participants row = 0%nat) rows).
  { subst rows. apply Forall_map. eapply Forall_impl; [| exact Hall].
    intros e He.
    apply (trial_of_silent G P (resolve composition)) in He.
    - destruct He as [_ He]. exact He.
    - intros t c Hin. destruct (Hdeg t c Hin); auto. }
  split; [| exact Hrows].
  f_equal. apply np_mean_const.
  - destruct rows; [contradiction | discriminate].
  - apply Forall_map. eapply Forall_impl; [| exact Hrows].
    intros row [_ [H _]]. exact H.
Qed.

Lemma degenerate_composition_is_simulated_witness :
  (1 <= 2)%Z /\
  (forall t c, In (t, c) [(INTRINSIC, 0%Z); (FREE_RIDER, (-4)%Z)] ->
     t = OPT_OUT \/ (c <= 0)%Z) /\
  exists summary : Summary,
    fst (simulate_collective_intelligence cycle_generator EMPIRICAL_PARAMS 2
           (Some [(INTRINSIC, 0%Z); (FREE_RIDER, (-4)%Z)]) (fresh_state 0)) =
      inr summary /\
    length (data summary) = 2%nat /\
    mean_accuracy summary = Num (5 / 10).
Proof.
  split; [lia |].
  assert (Hdeg : forall t c, In (t, c) [(INTRINSIC, 0%Z); (FREE_RIDER, (-4)%Z)] ->
            t = OPT_OUT \/ (c <= 0)%Z).
  { intros t c [H | [H | []]]; injection H as <- <-; right; lia. }
  split; [exact Hdeg |].
  destruct (degenerate_composition_is_simulated cycle_generator EMPIRICAL_PARAMS
              2 (Some [(INTRINSIC, 0%Z); (FREE_RIDER, (-4)%Z)]) (fresh_state 0)
              ltac:(lia)) as [summary [H1 [H2 [_ [_ H3]]]]].
  exists summary. split; [exact H1 |]. split; [exact H2 |].
  exact (proj1 (H3 Hdeg)).
Defined.

(** C8. The calls an agent makes on the generator are fixed by the branch it
    takes.  An [OPT_OUT] entry makes none and leaves the ratings unchanged.
    Another agent makes the participation call; if that draw is not below
    its participation probability it stops there, one call made and no
    rating added; otherwise it makes the bias call, then the noise call,
    three calls in that order, and adds one rating.  In every case the
    agent makes between 1 and 3 calls, an [OPT_OUT] entry 0. *)
Theorem draws_per_agent (G : Generator) (P : Params) (t : AgentType) (c : Z)
    (gt : R) (ratings : list R) (s : np_state G) :
  let u := fst (gen_random G (mt s)) in
  let g1 := snd (gen_random G (mt s)) in
  let b := fst (gen_random G g1) in
  let g2 := snd (gen_random G g1) in
  let bias :=
    match t with
    | INTRINSIC => if float_lt b (bias_model P t) then 8 else - 2
    | _ => if float_lt b (bias_model P t) then - 6 else 1
    end in
  let noise_std :=
    match t with
    | INTRINSIC => sqrt ((1 - accuracy_model P t) * 400)
    | _ => sqrt ((1 - accuracy_model P t) * 300)
    end in
  let z := fst (gen_normal G 0 noise_std g2) in
  let g3 := snd (gen_normal G 0 noise_std g2) in
  type_body G P (OPT_OUT, c) gt ratings s = (ratings, s) /\
  (float_lt u (participation_model P t false) = false ->
   agent_body G P t gt ratings s =
     (ratings, {| mt := g1; draws := draws s ++ [DrawRandom] |})) /\
  (float_lt u (participation_model P t false) = true ->
   agent_body G P t gt ratings s =
     (ratings ++ [np_clip (gt + bias + z) 0 100],
      {| mt := g3;
         draws := draws s ++ [DrawRandom; DrawRandom; DrawNormal 0 noise_std] |})) /\
  (exists ds : list draw,
     draws (snd (agent_body G P t gt ratings s)) = draws s ++ ds /\
     (1 <= length ds <= 3)%nat).
Proof.
  intros u g1 b g2 bias noise_std z g3.
  split; [reflexivity |].
  split; [intro H; apply agent_body_abstains; exact H |].
  split; [intro H; apply agent_body_participates; exact H |].
  destruct (float_lt u (participation_model P t false)) eqn:E; subst u.
  - rewrite (agent_body_participates G P t gt ratings s E). simpl.
    eexists. split; [reflexivity | simpl; lia].
  - rewrite (agent_body_abstains G P t gt ratings s E). simpl.
    eexists. split; [reflexivity | simpl; lia].
Qed.

(** C10. In every trial of every run the ground truth is in [20, 80], every
    rating and the collective estimate are in [0, 100], the estimate is at
    most 80 away from the ground truth, and the accuracy is in [0.2, 1];
    with at least one trial, the mean accuracy of the returned summary is
    therefore at least 0.2 (and at most 1). *)
Theorem accuracy_at_least_one_fifth (G : Generator) (P : Params) (n : Z)
    (composition : option Composition) (s : np_state G) :
  (1 <= n)%Z ->
  Forall (fun e : list R * ResultRow =>
            20 <= ground_truth (snd e) <= 80 /\
            Forall on_scale (fst e) /\
            0 <= collective_estimate (snd e) <= 100 /\
            Rabs (collective_estimate (snd e) - ground_truth (snd e)) <= 80 /\
            2 / 10 <= accuracy (snd e) <= 1)
    (fst (run_trials G P n composition s)) /\
  exists (summary : Summary) (m : R),
    fst (simulate_collective_intelligence G P n composition s) = inr summary /\
    data summary = map snd (fst (run_trials G P n composition s)) /\
    mean_accuracy summary = Num m /\ 2 / 10 <= m <= 1.
Proof.
  intro Hn. split.
  - destruct (run_trials_entries G P n composition s) as [Hall _].
    eapply Forall_impl; [| exact Hall].
    intros [ratings row] [gt [Hgt [Hs Hrow]]]. simpl in *. subst row.
    destruct ratings as [| r rs].
    + rewrite result_row_empty. simpl.
      repeat split; try lra; try assumption.
      unfold Rabs. destruct (Rcase_abs (50 - gt)); lra.
    + rewrite result_row_nonempty by discriminate. simpl.
      pose proof (np_mean_bounds 0 100 (r :: rs) ltac:(discriminate) Hs) as Hm.
      assert (Hab : Rabs (np_mean (r :: rs) - gt) <= 80).
      { unfold Rabs. destruct (Rcase_abs _); lra. }
      pose proof (Rabs_pos (np_mean (r :: rs) - gt)).
      repeat split; try lra; try assumption.
  - destruct (simulate_returns G P n composition s Hn) as [Hne Hrun].
    pose proof (run_trials_accuracies G P n composition s) as Hacc.
    rewrite Hrun. simpl fst.
    eexists. eexists. split; [reflexivity |]. simpl.
    split; [reflexivity |]. split; [reflexivity |].
    apply np_mean_bounds; [| exact Hacc].
    destruct (map snd _); [contradiction | discriminate].
Qed.

Lemma accuracy_at_least_one_fifth_witness :
  (1 <= 1)%Z /\
  exists (summary : Summary) (m : R),
    fst (simulate_collective_intelligence cycle_generator EMPIRICAL_PARAMS 1
           (Some [(INTRINSIC, 1%Z)]) (fresh_state 0)) = inr summary /\
    data summary =
      map snd (fst (run_trials cycle_generator EMPIRICAL_PARAMS 1
                      (Some [(INTRINSIC, 1%Z)]) (fresh_state 0))) /\
    mean_accuracy summary = Num m /\ 2 / 10 <= m <= 1.
Proof.
  split; [lia |].
  apply (accuracy_at_least_one_fifth cycle_generator EMPIRICAL_PARAMS 1
           (Some [(INTRINSIC, 1%Z)]) (fresh_state 0)).
  lia.
Defined.

(** * Further properties *)

(** ** Theory-of-mind models *)

Lemma base_rate_is_probability (p : Params) (t : AgentType) :
  rates_are_probabilities p -> 0 <= participation_model p t false <= 1.
Proof.
  intros [Hi Hf]. destruct t; simpl; lra.
Qed.

(** X1. When the base participation rates are probabilities, every
    reliability assessment lies in [0.3, 1], and the clamps [max(0.1, _)]
    and [min(0.9, _)] never change the value: a free-rider observer returns
    [1 - 0.7 * participation] and an intrinsic observer
    [0.3 + 0.6 * participation] of the source. *)
Theorem reliability_in_range (p : Params) (observer source : AgentType) :
  rates_are_probabilities p ->
  3 / 10 <= reliability_assessment p observer source <= 1 /\
  reliability_assessment p FREE_RIDER source =
    1 - participation_model p source false * (7 / 10) /\
  reliability_assessment p INTRINSIC source =
    3 / 10 + participation_model p source false * (6 / 10).
Proof.
  intro Hp.
  pose proof (base_rate_is_probability p source Hp) as Hs.
  assert (Hf : reliability_assessment p FREE_RIDER source =
               1 - participation_model p source false * (7 / 10)).
  { unfold reliability_assessment. apply Rmax_right. lra. }
  assert (Hi : reliability_assessment p INTRINSIC source =
               3 / 10 + participation_model p source false * (6 / 10)).
  { unfold reliability_assessment. apply Rmin_right. lra. }
  split; [| split; assumption].
  destruct observer.
  - rewrite Hi. lra.
  - rewrite Hf. lra.
  - simpl. lra.
Qed.

Lemma EMPIRICAL_PARAMS_rates : rates_are_probabilities EMPIRICAL_PARAMS.
Proof. unfold rates_are_probabilities. simpl. lra. Qed.

Lemma reliability_in_range_witness :
  rates_are_probabilities EMPIRICAL_PARAMS /\
  3 / 10 <= reliability_assessment EMPIRICAL_PARAMS FREE_RIDER INTRINSIC <= 1 /\
  reliability_assessment EMPIRICAL_PARAMS FREE_RIDER INTRINSIC =
    1 - participation_model EMPIRICAL_PARAMS INTRINSIC false * (7 / 10) /\
  reliability_assessment EMPIRICAL_PARAMS INTRINSIC INTRINSIC =
    3 / 10 + participation_model EMPIRICAL_PARAMS INTRINSIC false * (6 / 10).
Proof.
  split; [exact EMPIRICAL_PARAMS_rates |].
  exact (reliability_in_range EMPIRICAL_PARAMS FREE_RIDER INTRINSIC
           EMPIRICAL_PARAMS_rates).
Defined.

(** X2. Whatever the table, an intrinsic observer finds a source that
    participates more at least as reliable (frequency as a signal), and a
    free-rider observer finds it at most as reliable (selectivity as a
    signal). *)
Theorem reliability_follows_participation (p : Params)
    (source1 source2 : AgentType) :
  participation_model p source1 false <= participation_model p source2 false ->
  reliability_assessment p INTRINSIC source1 <=
    reliability_assessment p INTRINSIC source2 /\
  reliability_assessment p FREE_RIDER source2 <=
    reliability_assessment p FREE_RIDER source1.
Proof.
  intro H. unfold reliability_assessment. split.
  - apply Rle_min_compat_l. lra.
  - apply Rle_max_compat_l. lra.
Qed.

Lemma reliability_follows_participation_witness :
  participation_model EMPIRICAL_PARAMS FREE_RIDER false <=
    participation_model EMPIRICAL_PARAMS INTRINSIC false /\
  reliability_assessment EMPIRICAL_PARAMS INTRINSIC FREE_RIDER <=
    reliability_assessment EMPIRICAL_PARAMS INTRINSIC INTRINSIC /\
  reliability_assessment EMPIRICAL_PARAMS FREE_RIDER INTRINSIC <=
    reliability_assessment EMPIRICAL_PARAMS FREE_RIDER FREE_RIDER.
Proof.
  assert (H : participation_model EMPIRICAL_PARAMS FREE_RIDER false <=
              participation_model EMPIRICAL_PARAMS INTRINSIC false).
  { simpl. lra. }
  split; [exact H |].
  exact (reliability_follows_participation EMPIRICAL_PARAMS FREE_RIDER INTRINSIC H).
Defined.

(** X3. Homophily.  When the base rates are probabilities and free riders
    participate less than intrinsic agents, each of the two types finds its
    own type strictly more reliable than the other. *)
Theorem reliability_homophily (p : Params) :
  rates_are_probabilities p ->
  freerider_base_participation p < intrinsic_base_participation p ->
  reliability_assessment p FREE_RIDER INTRINSIC <
    reliability_assessment p FREE_RIDER FREE_RIDER /\
  reliability_assessment p INTRINSIC FREE_RIDER <
    reliability_assessment p INTRINSIC INTRINSIC.
Proof.
  intros [Hi Hf] Hlt. unfold reliability_assessment. simpl. split.
  - rewrite !Rmax_right by lra. lra.
  - rewrite !Rmin_right by lra. lra.
Qed.

Lemma reliability_homophily_witness :
  rates_are_probabilities EMPIRICAL_PARAMS /\
  freerider_base_participation EMPIRICAL_PARAMS <
    intrinsic_base_participation EMPIRICAL_PARAMS /\
  reliability_assessment EMPIRICAL_PARAMS FREE_RIDER INTRINSIC <
    reliability_assessment EMPIRICAL_PARAMS FREE_RIDER FREE_RIDER /\
  reliability_assessment EMPIRICAL_PARAMS INTRINSIC FREE_RIDER <
    reliability_assessment EMPIRICAL_PARAMS INTRINSIC INTRINSIC.
Proof.
  assert (H : freerider_base_participation EMPIRICAL_PARAMS <
              intrinsic_base_participation EMPIRICAL_PARAMS).
  { simpl. lra. }
  split; [exact EMPIRICAL_PARAMS_rates |]. split; [exact H |].
  exact (reliability_homophily EMPIRICAL_PARAMS EMPIRICAL_PARAMS_rates H).
Defined.

(** X4. When the base rates are probabilities, every meta-cognitive belief
    lies in [0.1, 0.9]. *)
Theorem meta_belief_in_range (p : Params) (agent other : AgentType) :
  rates_are_probabilities p ->
  1 / 10 <= meta_cognitive_reasoning p agent other <= 9 / 10.
Proof.
  intros [Hi Hf]. unfold meta_cognitive_reasoning.
  destruct other, agent; simpl; lra.
Qed.

Lemma meta_belief_in_range_witness :
  rates_are_probabilities EMPIRICAL_PARAMS /\
  1 / 10 <= meta_cognitive_reasoning EMPIRICAL_PARAMS INTRINSIC FREE_RIDER
    <= 9 / 10.
Proof.
  split; [exact EMPIRICAL_PARAMS_rates |].
  exact (meta_belief_in_range EMPIRICAL_PARAMS INTRINSIC FREE_RIDER
           EMPIRICAL_PARAMS_rates).
Defined.



(** ** Agents, participants and calls *)

Lemma result_row_fields (gt : R) (ratings : list R) :
  n_participants (result_row gt ratings) = length ratings /\
  ground_truth (result_row gt ratings) = gt.
Proof.
  unfold result_row. destruct ratings; simpl; auto.
Qed.

Lemma active_agents_cons (item : AgentType * Z) (rest : Composition) :
  active_agents (item :: rest) =
    ((if active_entry item then Z.to_nat (snd item) else 0) +
     active_agents rest)%nat.
Proof.
  unfold active_agents. simpl. destruct (active_entry item); reflexivity.
Qed.

Section Accounting.

Variable G : Generator.
Variable P : Params.

(** The guard of the loop over the composition and the empty range of a
    negative count together skip exactly the entries that are not active. *)
Lemma type_body_active (t : AgentType) (c : Z) (gt : R) (ratings : list R)
    (s : np_state G) :
  type_body G P (t, c) gt ratings s =
    if active_entry (t, c)
    then agents_loop G P (Z.to_nat c) t gt ratings s
    else (ratings, s).
Proof.
  unfold type_body, active_entry. simpl fst. simpl snd.
  destruct (AgentType_eqb t OPT_OUT); simpl; [reflexivity |].
  destruct (Z.eqb_spec c 0) as [-> | Hc]; [reflexivity |].
  destruct (Z.ltb_spec 0 c) as [Hpos | Hneg]; [reflexivity |].
  replace (Z.to_nat c) with 0%nat by lia. reflexivity.
Qed.

Lemma agent_body_accounting (t : AgentType) (gt : R) (ratings : list R)
    (s : np_state G) :
  exists j : nat,
    (j <= 1)%nat /\
    length (fst (agent_body G P t gt ratings s)) = (length ratings + j)%nat /\
    length (draws (snd (agent_body G P t gt ratings s))) =
      (length (draws s) + 1 + 2 * j)%nat.
Proof.
  destruct (float_lt (fst (gen_random G (mt s))) (participation_model P t false))
    eqn:E.
  - rewrite (agent_body_participates G P t gt ratings s E). simpl.
    exists 1%nat. rewrite !length_app. simpl. lia.
  - rewrite (agent_body_abstains G P t gt ratings s E). simpl.
    exists 0%nat. rewrite !length_app. simpl. lia.
Qed.

Lemma agents_loop_accounting (k : nat) (t : AgentType) (gt : R) :
  forall (ratings : list R) (s : np_state G),
  exists j : nat,
    (j <= k)%nat /\
    length (fst (agents_loop G P k t gt ratings s)) = (length ratings + j)%nat /\
    length (draws (snd (agents_loop G P k t gt ratings s))) =
      (length (draws s) + k + 2 * j)%nat.
Proof.
  induction k as [| k IH]; intros ratings s.
  - exists 0%nat. simpl. lia.
  - cbn [agents_loop]. unfold bind.
    destruct (agent_body_accounting t gt ratings s) as [j1 [B1 [L1 D1]]].
    destruct (agent_body G P t gt ratings s) as [r1 s1]. simpl in L1, D1.
    destruct (IH r1 s1) as [j2 [B2 [L2 D2]]].
    exists (j1 + j2)%nat. rewrite L2, D2, L1, D1. lia.
Qed.

Lemma types_loop_accounting (items : Composition) (gt : R) :
  forall (ratings : list R) (s : np_state G),
  exists j : nat,
    (j <= active_agents items)%nat /\
    length (fst (types_loop G P items gt ratings s)) = (length ratings + j)%nat /\
    length (draws (snd (types_loop G P items gt ratings s))) =
      (length (draws s) + active_agents items + 2 * j)%nat.
Proof.
  induction items as [| [t c] rest IH]; intros ratings s.
  - exists 0%nat. simpl. unfold active_agents. simpl. lia.
  - cbn [types_loop]. unfold bind. rewrite type_body_active.
    rewrite active_agents_cons. simpl snd.
    destruct (active_entry (t, c)).
    + destruct (agents_loop_accounting (Z.to_nat c) t gt ratings s)
        as [j1 [B1 [L1 D1]]].
      destruct (agents_loop G P (Z.to_nat c) t gt ratings s) as [r1 s1].
      simpl in L1, D1.
      destruct (IH r1 s1) as [j2 [B2 [L2 D2]]].
      exists (j1 + j2)%nat. rewrite L2, D2, L1, D1. lia.
    + destruct (IH ratings s) as [j2 [B2 [L2 D2]]].
      exists j2. rewrite L2, D2. lia.
Qed.

(** One trial: the ground truth is the value of the [uniform] call, the row
    counts the ratings, at most one per active agent, and the trial makes
    one call for the ground truth, one per active agent and two more per
    participant. *)
Lemma trial_body_accounting (comp : Composition)
    (results : list (list R * ResultRow)) (s : np_state G) :
  exists e : list R * ResultRow,
    fst (trial_body G P comp results s) = results ++ [e] /\
    ground_truth (snd e) = fst (gen_uniform G 20 80 (mt s)) /\
    (n_participants (snd e) <= active_agents comp)%nat /\
    length (draws (snd (trial_body G P comp results s))) =
      (length (draws s) + (1 + active_agents comp) +
       2 * n_participants (snd e))%nat.
Proof.
  unfold trial_body, bind, np_random_uniform, ret.
  destruct (gen_uniform G 20 80 (mt s)) as [gt g]. simpl fst.
  match goal with
  | |- context [types_loop G P comp gt [] ?s0] =>
      destruct (types_loop_accounting comp gt [] s0) as [j [B [L D]]];
      destruct (types_loop G P comp gt [] s0) as [ratings s1]
  end.
  simpl in L, D. rewrite length_app in D. simpl in D.
  eexists. split; [reflexivity |]. simpl.
  destruct (result_row_fields gt ratings) as [Hn Hg].
  rewrite Hn, Hg, L, D. repeat split; lia.
Qed.

Lemma trials_loop_accounting (k : nat) (comp : Composition) :
  forall (results : list (list R * ResultRow)) (s : np_state G),
  exists new : list (list R * ResultRow),
    fst (trials_loop G P k comp results s) = results ++ new /\
    length new = k /\
    (k <> 0%nat ->
     option_map ground_truth (hd_error (map snd new)) =
       Some (fst (gen_uniform G 20 80 (mt s)))) /\
    Forall (fun row => (n_participants row <= active_agents comp)%nat)
      (map snd new) /\
    length (draws (snd (trials_loop G P k comp results s))) =
      (length (draws s) + k * (1 + active_agents comp) +
       2 * total_participants (map snd new))%nat.
Proof.
  induction k as [| k IH]; intros results s.
  - exists []. simpl. rewrite app_nil_r. unfold total_participants. simpl.
    split; [reflexivity |]. split; [reflexivity |].
    split; [intro H; contradiction |]. split; [constructor | lia].
  - cbn [trials_loop]. unfold bind.
    destruct (trial_body_accounting comp results s) as [e [H1 [Hg [Hb D1]]]].
    destruct (trial_body G P comp results s) as [r1 s1]. simpl in H1, D1.
    subst r1.
    destruct (IH (results ++ [e]) s1) as [new [H2 [L2 [_ [F2 D2]]]]].
    exists (e :: new). rewrite H2, <- app_assoc. simpl.
    split; [reflexivity |]. split; [lia |].
    split; [intros _; rewrite Hg; reflexivity |].
    split; [constructor; assumption |].
    rewrite D2, D1. unfold total_participants. simpl. lia.
Qed.

End Accounting.

Lemma total_participants_bound (a : nat) (rows : list ResultRow) :
  Forall (fun row => (n_participants row <= a)%nat) rows ->
  (total_participants rows <= length rows * a)%nat.
Proof.
  unfold total_participants.
  induction 1 as [| row rows Hrow _ IH]; simpl; lia.
Qed.

(** The run as a whole: rows, first ground truth, participants and calls. *)
Lemma run_trials_accounting (G : Generator) (P : Params) (n : Z)
    (composition : option Composition) (s : np_state G) :
  let rows := map snd (fst (run_trials G P n composition s)) in
  let a := active_agents (resolve composition) in
  length rows = Z.to_nat n /\
  ((1 <= n)%Z ->
   option_map ground_truth (hd_error rows) =
     Some (fst (gen_uniform G 20 80 (gen_seed G 42)))) /\
  Forall (fun row => (n_participants row <= a)%nat) rows /\
  length (draws (snd (run_trials G P n composition s))) =
    (length (draws s) + Z.to_nat n * (1 + a) + 2 * total_participants rows)%nat.
Proof.
  intros rows a. subst rows a.
  unfold run_trials, bind, np_random_seed.
  match goal with
  | |- context [trials_loop G P ?k ?c [] ?s0] =>
      destruct (trials_loop_accounting G P k c [] s0)
        as [new [H [L [Hg [F D]]]]]
  end.
  rewrite H in *. simpl app in *. simpl fst in *.
  split; [rewrite length_map; exact L |].
  split; [intro Hn; apply Hg; lia |].
  split; [exact F | exact D].
Qed.

(** X6. With at least one trial, no row of the returned table counts more
    participants than the composition has active agents (agents of a type
    other than [OPT_OUT], summed over the positive counts). *)
Theorem participants_bounded_by_agents (G : Generator) (P : Params) (n : Z)
    (composition : option Composition) (s : np_state G) :
  (1 <= n)%Z ->
  exists summary : Summary,
    fst (simulate_collective_intelligence G P n composition s) = inr summary /\
    Forall (fun row =>
              (n_participants row <= active_agents (resolve composition))%nat)
      (data summary).
Proof.
  intro Hn.
  destruct (simulate_returns G P n composition s Hn) as [_ Hrun].
  destruct (run_trials_accounting G P n composition s) as [_ [_ [F _]]].
  rewrite Hrun. simpl fst. eexists. split; [reflexivity |]. exact F.
Qed.

Lemma participants_bounded_by_agents_witness :
  (1 <= 3)%Z /\
  exists summary : Summary,
    fst (simulate_collective_intelligence cycle_generator EMPIRICAL_PARAMS 3
           (Some [(INTRINSIC, 2%Z); (OPT_OUT, 5%Z); (FREE_RIDER, (-1)%Z)])
           (fresh_state 0)) = inr summary /\
    Forall (fun row => (n_participants row <= 2)%nat) (data summary).
Proof.
  split; [lia |].
  apply (participants_bounded_by_agents cycle_generator EMPIRICAL_PARAMS 3
           (Some [(INTRINSIC, 2%Z); (OPT_OUT, 5%Z); (FREE_RIDER, (-1)%Z)])
           (fresh_state 0)).
  lia.
Defined.

(** X7. The calls of a run.  With [n >= 1] trials on a composition of [a]
    active agents, the simulation makes exactly
    [n * (1 + a) + 2 * participants] calls on the generator, where
    [participants] is the sum of [n_participants] over the returned table:
    one call per trial for the ground truth, one per active agent for its
    participation, two more per participant.  Hence between [n * (1 + a)]
    and [n * (1 + 3 * a)] calls. *)
Theorem calls_of_a_run (G : Generator) (P : Params) (n : Z)
    (composition : option Composition) (s : np_state G) :
  (1 <= n)%Z ->
  let a := active_agents (resolve composition) in
  let made :=
    (length (draws (snd (simulate_collective_intelligence G P n composition s)))
     - length (draws s))%nat in
  exists summary : Summary,
    fst (simulate_collective_intelligence G P n composition s) = inr summary /\
    length (data summary) = Z.to_nat n /\
    length (draws (snd (simulate_collective_intelligence G P n composition s))) =
      (length (draws s) + made)%nat /\
    made = (Z.to_nat n * (1 + a) + 2 * total_participants (data summary))%nat /\
    (Z.to_nat n * (1 + a) <= made <= Z.to_nat n * (1 + 3 * a))%nat.
Proof.
  intros Hn a made.
  destruct (simulate_returns G P n composition s Hn) as [_ Hrun].
  destruct (run_trials_accounting G P n composition s) as [L [_ [F D]]].
  pose proof (total_participants_bound _ _ F) as B. rewrite L in B.
  subst made. rewrite Hrun. simpl fst. simpl snd.
  eexists. split; [reflexivity |]. simpl data.
  fold a in D, B |- *.
  split; [exact L |]. rewrite D.
  repeat split; nia.
Qed.

Lemma calls_of_a_run_witness :
  (1 <= 1)%Z /\
  exists summary : Summary,
    fst (simulate_collective_intelligence cycle_generator EMPIRICAL_PARAMS 1
           (Some [(INTRINSIC, 1%Z)]) (fresh_state 0)) = inr summary /\
    length (data summary) = 1%nat /\
    length (draws (snd (simulate_collective_intelligence cycle_generator
                          EMPIRICAL_PARAMS 1 (Some [(INTRINSIC, 1%Z)])
                          (fresh_state 0)))) = 4%nat.
Proof.
  split; [lia |].
  destruct (calls_of_a_run cycle_generator EMPIRICAL_PARAMS 1
              (Some [(INTRINSIC, 1%Z)]) (fresh_state 0) ltac:(lia))
    as [summary [H1 [H2 [H3 _]]]].
  exists summary. split; [exact H1 |]. split; [exact H2 |].
  rewrite simulate_after_trials. simpl snd.
  rewrite cycle_run_one_intrinsic. reflexivity.
Defined.

(** X8. With at least one trial, the ground truth of the first row is the
    value [uniform(20, 80)] returns on the generator seeded with 42: it does
    not depend on the parameters, on the composition, on the trial count or
    on the state the call starts from. *)
Theorem first_ground_truth_is_fixed (G : Generator) (P : Params) (n : Z)
    (composition : option Composition) (s : np_state G) :
  (1 <= n)%Z ->
  first_ground_truth
    (fst (simulate_collective_intelligence G P n composition s)) =
    Some (fst (gen_uniform G 20 80 (gen_seed G 42))).
Proof.
  intro Hn.
  destruct (simulate_returns G P n composition s Hn) as [_ Hrun].
  destruct (run_trials_accounting G P n composition s) as [_ [Hg _]].
  rewrite Hrun. simpl. apply Hg. exact Hn.
Qed.

Lemma first_ground_truth_is_fixed_witness :
  (1 <= 5)%Z /\
  first_ground_truth
    (fst (simulate_collective_intelligence cycle_generator EMPIRICAL_PARAMS 5
            None (fresh_state 9))) = Some 50.
Proof.
  split; [lia |].
  rewrite (first_ground_truth_is_fixed cycle_generator EMPIRICAL_PARAMS 5 None
             (fresh_state 9)) by lia.
  f_equal. simpl. change (Pos.to_nat 42 mod 4)%nat with 2%nat. simpl. lra.
Defined.

(** ** Entries that put no agent in a trial *)

Section Normalisation.

Variable G : Generator.
Variable P : Params.

Lemma types_loop_filter (items : Composition) (gt : R) :
  forall (ratings : list R) (s : np_state G),
    types_loop G P items gt ratings s =
    types_loop G P (filter active_entry items) gt ratings s.
Proof.
  induction items as [| [t c] rest IH]; intros ratings s.
  - reflexivity.
  - cbn [types_loop filter].
    destruct (active_entry (t, c)) eqn:E.
    + cbn [types_loop]. unfold bind.
      destruct (type_body G P (t, c) gt ratings s) as [r1 s1]. apply IH.
    + unfold bind. rewrite type_body_active, E. apply IH.
Qed.

Lemma trial_body_filter (comp : Composition)
    (results : list (list R * ResultRow)) (s : np_state G) :
  trial_body G P comp results s =
  trial_body G P (filter active_entry comp) results s.
Proof.
  unfold trial_body, bind.
  destruct (np_random_uniform G 20 80 s) as [gt s0].
  rewrite types_loop_filter. reflexivity.
Qed.

Lemma trials_loop_filter (k : nat) (comp : Composition) :
  forall (results : list (list R * ResultRow)) (s : np_state G),
    trials_loop G P k comp results s =
    trials_loop G P k (filter active_entry comp) results s.
Proof.
  induction k as [| k IH]; intros results s.
  - reflexivity.
  - cbn [trials_loop]. unfold bind. rewrite trial_body_filter.
    destruct (trial_body G P (filter active_entry comp) results s) as [r1 s1].
    apply IH.
Qed.

End Normalisation.

(** X9. Entries of type [OPT_OUT] and entries with a zero or negative count
    can be removed from a composition without changing the run: the trials,
    the rows, the summary statistics and the final state of the generator
    and its history are the same (only the composition echoed in the result
    differs). *)
Theorem inactive_entries_are_ignored (G : Generator) (P : Params) (n : Z)
    (comp : Composition) (s : np_state G) :
  let full := simulate_collective_intelligence G P n (Some comp) s in
  let kept :=
    simulate_collective_intelligence G P n (Some (filter active_entry comp)) s in
  run_trials G P n (Some comp) s =
    run_trials G P n (Some (filter active_entry comp)) s /\
  snd full = snd kept /\
  match fst full, fst kept with
  | inr a, inr b =>
      mean_accuracy a = mean_accuracy b /\ std_accuracy a = std_accuracy b /\
      data a = data b
  | inl e1, inl e2 => e1 = e2
  | _, _ => False
  end.
Proof.
  intros full kept.
  assert (H : run_trials G P n (Some comp) s =
              run_trials G P n (Some (filter active_entry comp)) s).
  { unfold run_trials, bind, np_random_seed. apply trials_loop_filter. }
  split; [exact H |].
  subst full kept. rewrite !simulate_after_trials. simpl fst. simpl snd.
  rewrite H. split; [reflexivity |].
  destruct (accuracy_column _); simpl; auto.
Qed.

(** ** Agents that always rate *)

Section FullParticipation.

Variable G : Generator.
Variable P : Params.

Lemma agents_loop_full (k : nat) (t : AgentType) (gt : R) :
  1 <= participation_model P t false ->
  forall (ratings : list R) (s : np_state G),
    length (fst (agents_loop G P k t gt ratings s)) = (length ratings + k)%nat.
Proof.
  intro Hrate. induction k as [| k IH]; intros ratings s.
  - simpl. lia.
  - cbn [agents_loop]. unfold bind.
    rewrite agent_body_participates.
    + rewrite IH, length_app. simpl. lia.
    + apply float_lt_true.
      pose proof (gen_random_range G (mt s)). lra.
Qed.

Lemma types_loop_full (items : Composition) (gt : R) :
  (forall t c, In (t, c) items -> active_entry (t, c) = true ->
     1 <= participation_model P t false) ->
  forall (ratings : list R) (s : np_state G),
    length (fst (types_loop G P items gt ratings s)) =
      (length ratings + active_agents items)%nat.
Proof.
  induction items as [| [t c] rest IH]; intros H ratings s.
  - simpl. unfold active_agents. simpl. lia.
  - cbn [types_loop]. unfold bind. rewrite type_body_active.
    rewrite active_agents_cons. simpl snd.
    assert (Hrest : forall t' c', In (t', c') rest ->
              active_entry (t', c') = true ->
              1 <= participation_model P t' false).
    { intros t' c' Hin. apply H. right. exact Hin. }
    destruct (active_entry (t, c)) eqn:E.
    + pose proof (agents_loop_full (Z.to_nat c) t gt
                    (H t c (or_introl eq_refl) E) ratings s) as L1.
      destruct (agents_loop G P (Z.to_nat c) t gt ratings s) as [r1 s1].
      simpl in L1. rewrite (IH Hrest), L1. lia.
    + rewrite (IH Hrest). lia.
Qed.

End FullParticipation.

(** X10. When every active entry of the composition has a participation
    probability of at least 1, every agent rates in every trial: with at
    least one trial, each row of the returned table counts exactly the
    active agents of the composition. *)
Theorem certain_participation_counts_all (G : Generator) (P : Params) (n : Z)
    (composition : option Composition) (s : np_state G) :
  (1 <= n)%Z ->
  (forall t c, In (t, c) (resolve composition) -> active_entry (t, c) = true ->
     1 <= participation_model P t false) ->
  exists summary : Summary,
    fst (simulate_collective_intelligence G P n composition s) = inr summary /\
    Forall (fun row =>
              n_participants row = active_agents (resolve composition))
      (data summary).
Proof.
  intros Hn Hfull.
  destruct (simulate_returns G P n composition s Hn) as [_ Hrun].
  destruct (run_trials_trials G P n composition s) as [Hall _].
  rewrite Hrun. simpl fst. eexists. split; [reflexivity |]. simpl data.
  apply Forall_map. eapply Forall_impl; [| exact Hall].
  intros e [gt [s0 [_ [Hr Hrow]]]].
  rewrite Hrow. rewrite (proj1 (result_row_fields gt (fst e))), Hr.
  rewrite (types_loop_full G P _ gt Hfull). reflexivity.
Qed.

Lemma certain_participation_counts_all_witness :
  (1 <= 2)%Z /\
  (forall t c, In (t, c) [(INTRINSIC, 2%Z); (FREE_RIDER, 1%Z); (OPT_OUT, 4%Z)] ->
     active_entry (t, c) = true ->
     1 <= participation_model certain_params t false) /\
  exists summary : Summary,
    fst (simulate_collective_intelligence cycle_generator certain_params 2
           (Some [(INTRINSIC, 2%Z); (FREE_RIDER, 1%Z); (OPT_OUT, 4%Z)])
           (fresh_state 0)) = inr summary /\
    Forall (fun row => n_participants row = 3%nat) (data summary).
Proof.
  assert (H : forall t c,
            In (t, c) [(INTRINSIC, 2%Z); (FREE_RIDER, 1%Z); (OPT_OUT, 4%Z)] ->
            active_entry (t, c) = true ->
            1 <= participation_model certain_params t false).
  { intros t c [E | [E | [E | []]]] Hact; injection E as <- <-;
      simpl; try lra; discriminate Hact. }
  split; [lia |]. split; [exact H |].
  exact (certain_participation_counts_all cycle_generator certain_params 2
           (Some [(INTRINSIC, 2%Z); (FREE_RIDER, 1%Z); (OPT_OUT, 4%Z)])
           (fresh_state 0) ltac:(lia) H).
Defined.

(** ** Runs without participants *)

Lemma series_std_const (c : R) (xs : list R) :
  (2 <= length xs)%nat ->
  Forall (fun x => x = c) xs ->
  series_std xs = Num 0.
Proof.
  intros Hlen Hall. unfold series_std.
  destruct (length xs <=? 1)%nat eqn:E; [apply Nat.leb_le in E; lia |].
  assert (Hne : xs <> []) by (destruct xs; [simpl in Hlen; lia | discriminate]).
  rewrite (np_mean_const c xs Hne Hall).
  rewrite (sum_list_const 0).
  - rewrite Rmult_0_r. unfold Rdiv. rewrite Rmult_0_l, sqrt_0. reflexivity.
  - apply Forall_map. eapply Forall_impl; [| exact Hall].
    intros x Hx. rewrite Hx. lra.
Qed.

(** X11. When no agent of the composition can rate (each entry is
    [OPT_OUT], has a count that is not positive, or has participation
    probability 0) and at least two trials are run, the summary is exactly
    mean accuracy 0.5 and standard deviation 0. *)
Theorem run_without_participants (G : Generator) (P : Params) (n : Z)
    (composition : option Composition) (s : np_state G) :
  (2 <= n)%Z ->
  (forall t c, In (t, c) (resolve composition) ->
     t = OPT_OUT \/ (c <= 0)%Z \/ participation_model P t false = 0) ->
  exists summary : Summary,
    fst (simulate_collective_intelligence G P n composition s) = inr summary /\
    mean_accuracy summary = Num (5 / 10) /\
    std_accuracy summary = Num 0 /\
    Forall (fun row => n_participants row = 0%nat) (data summary).
Proof.
  intros Hn Hsil.
  destruct (simulate_returns G P n composition s ltac:(lia)) as [Hne Hrun].
  destruct (run_trials_trials G P n composition s) as [Hall Hlen].
  set (rows := map snd (fst (run_trials G P n composition s))) in *.
  assert (Hrows : Forall (fun row => accuracy row = 5 / 10 /\
                                     n_participants row = 0%nat) rows).
  { subst rows. apply Forall_map. eapply Forall_impl; [| exact Hall].
    intros e He.
    destruct (trial_of_silent G P _ _ Hsil He) as [_ [_ [Ha Hp]]]. auto. }
  assert (Hacc : Forall (fun x => x = 5 / 10) (map accuracy rows)).
  { apply Forall_map. eapply Forall_impl; [| exact Hrows].
    intros row [Ha _]. exact Ha. }
  rewrite Hrun. simpl fst. eexists. split; [reflexivity |]. simpl.
  split; [f_equal; apply np_mean_const;
          [destruct rows; [contradiction | discriminate] | exact Hacc] |].
  split.
  - apply (series_std_const (5 / 10)); [| exact Hacc].
    subst rows. rewrite !length_map, Hlen. lia.
  - eapply Forall_impl; [| exact Hrows]. intros row [_ Hp]. exact Hp.
Qed.

Lemma run_without_participants_witness :
  (2 <= 4)%Z /\
  (forall t c, In (t, c) [(OPT_OUT, 6%Z); (INTRINSIC, 0%Z)] ->
     t = OPT_OUT \/ (c <= 0)%Z \/
     participation_model EMPIRICAL_PARAMS t false = 0) /\
  exists summary : Summary,
    fst (simulate_collective_intelligence cycle_generator EMPIRICAL_PARAMS 4
           (Some [(OPT_OUT, 6%Z); (INTRINSIC, 0%Z)]) (fresh_state 0)) =
      inr summary /\
    mean_accuracy summary = Num (5 / 10) /\
    std_accuracy summary = Num 0 /\
    Forall (fun row => n_participants row = 0%nat) (data summary).
Proof.
  assert (H : forall t c, In (t, c) [(OPT_OUT, 6%Z); (INTRINSIC, 0%Z)] ->
            t = OPT_OUT \/ (c <= 0)%Z \/
            participation_model EMPIRICAL_PARAMS t false = 0).
  { intros t c [E | [E | []]]; injection E as <- <-; [left | right; left];
      [reflexivity | lia]. }
  split; [lia |]. split; [exact H |].
  exact (run_without_participants cycle_generator EMPIRICAL_PARAMS 4
           (Some [(OPT_OUT, 6%Z); (INTRINSIC, 0%Z)]) (fresh_state 0)
           ltac:(lia) H).
Defined.

(** ** The comparison of populations *)

Section Comparison.

Variable G : Generator.
Variable P : Params.

(** The outcome of a simulation does not depend on the state it starts
    from. *)
Lemma simulate_reseeds (n : Z) (composition : option Composition)
    (s1 s2 : np_state G) :
  fst (simulate_collective_intelligence G P n composition s1) =
    fst (simulate_collective_intelligence G P n composition s2) /\
  mt (snd (simulate_collective_intelligence G P n composition s1)) =
    mt (snd (simulate_collective_intelligence G P n composition s2)).
Proof.
  destruct (run_trials_reseeds G P n composition s1 s2) as [Hv Hs].
  rewrite !simulate_after_trials. simpl. rewrite Hv. auto.
Qed.

(** The loop returns, under each name and in the order of the dict, the
    summary the simulation of that composition returns from any state. *)
Lemma compare_loop_runs (items : list (string * Composition)) :
  forall (results : list (string * Summary)) (s : np_state G),
  exists new : list (string * Summary),
    fst (compare_loop G P items results s) = inr (results ++ new) /\
    Forall2 (fun item entry =>
               fst entry = fst item /\
               forall s' : np_state G,
                 fst (simulate_collective_intelligence G P 500
                        (Some (snd item)) s') = inr (snd entry))
      items new.
Proof.
  induction items as [| [name comp] rest IH]; intros results s.
  - exists []. simpl. rewrite app_nil_r. split; [reflexivity | constructor].
  - cbn [compare_loop]. unfold bind.
    destruct (simulate_returns G P 500 (Some comp) s ltac:(lia)) as [_ Hrun].
    destruct (simulate_collective_intelligence G P 500 (Some comp) s)
      as [r s1] eqn:E.
    injection Hrun as Hr _.
    rewrite Hr.
    match goal with
    | |- context [compare_loop G P rest (results ++ [(name, ?sm)]) s1] =>
        set (summary := sm) in *;
        destruct (IH (results ++ [(name, summary)]) s1) as [new [H F]]
    end.
    exists ((name, summary) :: new). rewrite H, <- app_assoc.
    split; [reflexivity |].
    constructor; [| exact F]. simpl. split; [reflexivity |].
    intro s'.
    rewrite (proj1 (simulate_reseeds 500 (Some comp) s' s)), E.
    simpl. exact Hr.
Qed.

End Comparison.

(** What a returned summary of at least two trials holds. *)
Lemma summary_facts (G : Generator) (P : Params) (n : Z)
    (composition : option Composition) (s : np_state G) (summary : Summary) :
  (2 <= n)%Z ->
  fst (simulate_collective_intelligence G P n composition s) = inr summary ->
  length (data summary) = Z.to_nat n /\
  first_ground_truth (inr summary) =
    Some (fst (gen_uniform G 20 80 (gen_seed G 42))) /\
  Forall (fun row =>
            (n_participants row <= active_agents (resolve composition))%nat)
    (data summary) /\
  exists m sd : R,
    mean_accuracy summary = Num m /\ 2 / 10 <= m <= 1 /\
    std_accuracy summary = Num sd /\ 0 <= sd.
Proof.
  intros Hn Hs.
  destruct (simulate_returns G P n composition s ltac:(lia)) as [Hne Hrun].
  destruct (run_trials_accounting G P n composition s) as [L [Hg [F _]]].
  pose proof (run_trials_accuracies G P n composition s) as Hacc.
  set (rows := map snd (fst (run_trials G P n composition s))) in *.
  rewrite Hrun in Hs. simpl in Hs. injection Hs as <-. simpl.
  split; [exact L |]. split; [apply Hg; lia |]. split; [exact F |].
  destruct (series_std_number (map accuracy rows)) as [sd [Hsd Hpos]].
  { rewrite length_map, L. lia. }
  exists (np_mean (map accuracy rows)), sd.
  split; [reflexivity |]. split; [| split; assumption].
  apply np_mean_bounds; [| exact Hacc].
  destruct rows; [contradiction | discriminate].
Qed.

(** X12. [compare_populations] raises no exception and returns four
    summaries, under the four names and in the order of its dict; each is
    the summary that a simulation of 500 trials of that composition returns
    when run on its own, from any state of the generator: the entries do not
    depend on the order of the comparison or on what ran before. *)
Theorem comparison_entries_are_standalone (G : Generator) (P : Params)
    (s : np_state G) :
  exists r1 r2 r3 r4 : Summary,
    fst (compare_populations G P s) =
      inr [("Homogeneous (Intrinsic)"%string, r1);
           ("Homogeneous (Free Rider)"%string, r2);
           ("Mixed (60/40)"%string, r3);
           ("Mixed (50/50)"%string, r4)] /\
    forall s' : np_state G,
      fst (simulate_collective_intelligence G P 500
             (Some [(INTRINSIC, 15%Z); (FREE_RIDER, 0%Z)]) s') = inr r1 /\
      fst (simulate_collective_intelligence G P 500
             (Some [(INTRINSIC, 0%Z); (FREE_RIDER, 15%Z)]) s') = inr r2 /\
      fst (simulate_collective_intelligence G P 500
             (Some [(INTRINSIC, 9%Z); (FREE_RIDER, 6%Z)]) s') = inr r3 /\
      fst (simulate_collective_intelligence G P 500
             (Some [(INTRINSIC, 7%Z); (FREE_RIDER, 7%Z)]) s') = inr r4.
Proof.
  unfold compare_populations.
  destruct (compare_loop_runs G P compositions [] s) as [new [H F]].
  unfold compositions in F.
  inversion F as [| i1 [n1 r1] l1 t1 [N1 S1] F1]; subst.
  inversion F1 as [| i2 [n2 r2] l2 t2 [N2 S2] F2]; subst.
  inversion F2 as [| i3 [n3 r3] l3 t3 [N3 S3] F3]; subst.
  inversion F3 as [| i4 [n4 r4] l4 t4 [N4 S4] F4]; subst.
  inversion F4; subst.
  simpl in N1, N2, N3, N4, S1, S2, S3, S4. subst.
  exists r1, r2, r3, r4. split; [exact H |].
  intro s'. auto.
Qed.

(** X13. Every table [compare_populations] returns has 500 rows, starts
    with the same ground truth (the first [uniform(20, 80)] of the generator
    seeded with 42), counts at most 15 participants in a row, and has
    summary statistics that are numbers: a mean accuracy in [0.2, 1] and a
    standard deviation that is not negative. *)
Theorem comparison_tables (G : Generator) (P : Params) (s : np_state G) :
  exists results : list (string * Summary),
    fst (compare_populations G P s) = inr results /\
    map fst results = map fst compositions /\
    Forall (fun entry : string * Summary =>
              length (data (snd entry)) = 500%nat /\
              first_ground_truth (inr (snd entry)) =
                Some (fst (gen_uniform G 20 80 (gen_seed G 42))) /\
              Forall (fun row => (n_participants row <= 15)%nat)
                (data (snd entry)) /\
              exists m sd : R,
                mean_accuracy (snd entry) = Num m /\ 2 / 10 <= m <= 1 /\
                std_accuracy (snd entry) = Num sd /\ 0 <= sd)
      results.
Proof.
  unfold compare_populations.
  destruct (compare_loop_runs G P compositions [] s) as [new [H F]].
  exists new. split; [exact H |].
  assert (Hitem : Forall (fun item : string * Composition =>
                    (active_agents (snd item) <= 15)%nat) compositions).
  { unfold compositions, active_agents. repeat constructor; simpl; lia. }
  clear H. revert Hitem F. generalize compositions as items.
  intros items Hitem F.
  induction F as [| [name comp] [name' r] items new [N S] F IH].
  - split; constructor.
  - inversion Hitem as [| ? ? Ha Hrest]; subst. simpl in N, S, Ha. subst name'.
    destruct (IH Hrest) as [IH1 IH2].
    split; [simpl; rewrite IH1; reflexivity |].
    constructor; [| exact IH2]. simpl.
    destruct (summary_facts G P 500 (Some comp) s r ltac:(lia) (S s))
      as [L [Hg [Fp Hm]]].
    split; [rewrite L; reflexivity |]. split; [exact Hg |].
    split; [| exact Hm].
    eapply Forall_impl; [| exact Fp]. simpl. intros row Hrow. lia.
Qed.

(** ** Rows with and without participants *)

(** X14. In a returned table, a row with participants has the accuracy
    [1 - |collective_estimate - ground_truth| / 100]; a row without
    participants reports the estimate 50.0 with the accuracy 0.5, which is
    strictly less than that formula gives for its own estimate and ground
    truth (at least 0.7, the ground truth being within 30 of 50). *)
Theorem fallback_accuracy_is_below_formula (G : Generator) (P : Params)
    (n : Z) (composition : option Composition) (s : np_state G) :
  (1 <= n)%Z ->
  exists summary : Summary,
    fst (simulate_collective_intelligence G P n composition s) = inr summary /\
    Forall (fun row =>
              let formula :=
                1 - Rabs (collective_estimate row - ground_truth row) / 100 in
              (n_participants row <> 0%nat -> accuracy row = formula) /\
              (n_participants row = 0%nat ->
               collective_estimate row = 50 /\ accuracy row = 5 / 10 /\
               7 / 10 <= formula))
      (data summary).
Proof.
  intro Hn.
  destruct (simulate_returns G P n composition s Hn) as [_ Hrun].
  destruct (run_trials_entries G P n composition s) as [Hall _].
  rewrite Hrun. simpl fst. eexists. split; [reflexivity |]. simpl data.
  apply Forall_map. eapply Forall_impl; [| exact Hall].
  intros [ratings row] [gt [Hgt [_ Hrow]]]. simpl in *. subst row.
  destruct ratings as [| r rs].
  - rewrite result_row_empty. simpl. split; [intro H; contradiction |].
    intros _. split; [reflexivity |]. split; [reflexivity |].
    assert (Hab : Rabs (50 - gt) <= 30).
    { unfold Rabs. destruct (Rcase_abs (50 - gt)); lra. }
    lra.
  - rewrite result_row_nonempty by discriminate. simpl.
    split; [reflexivity | discriminate].
Qed.

Lemma fallback_accuracy_is_below_formula_witness :
  (1 <= 1)%Z /\
  exists summary : Summary,
    fst (simulate_collective_intelligence cycle_generator EMPIRICAL_PARAMS 1
           (Some [(OPT_OUT, 3%Z)]) (fresh_state 0)) = inr summary /\
    Forall (fun row =>
              let formula :=
                1 - Rabs (collective_estimate row - ground_truth row) / 100 in
              (n_participants row <> 0%nat -> accuracy row = formula) /\
              (n_participants row = 0%nat ->
               collective_estimate row = 50 /\ accuracy row = 5 / 10 /\
               7 / 10 <= formula))
      (data summary).
Proof.
  split; [lia |].
  apply (fallback_accuracy_is_below_formula cycle_generator EMPIRICAL_PARAMS 1
           (Some [(OPT_OUT, 3%Z)]) (fresh_state 0)).
  lia.
Defined.

(** ** Longer runs extend shorter ones *)

Section Prefix.

Variable G : Generator.
Variable P : Params.

(** The trial loop of [k + m] rounds is the loop of [k] rounds followed by
    the loop of [m] rounds. *)
Lemma trials_loop_add (k m : nat) (comp : Composition) :
  forall (results : list (list R * ResultRow)) (s : np_state G),
    trials_loop G P (k + m) comp results s =
    trials_loop G P m comp
      (fst (trials_loop G P k comp results s))
      (snd (trials_loop G P k comp results s)).
Proof.
  induction k as [| k IH]; intros results s.
  - reflexivity.
  - cbn [Nat.add trials_loop]. unfold bind.
    destruct (trial_body G P comp results s) as [r1 s1]. apply IH.
Qed.

Lemma run_trials_prefix (k n : Z) (composition : option Composition)
    (s : np_state G) :
  (0 <= k <= n)%Z ->
  exists more : list (list R * ResultRow),
    fst (run_trials G P n composition s) =
      fst (run_trials G P k composition s) ++ more /\
    length more = Z.to_nat (n - k).
Proof.
  intro Hk. unfold run_trials, bind, np_random_seed.
  replace (Z.to_nat n) with (Z.to_nat k + Z.to_nat (n - k))%nat by lia.
  rewrite trials_loop_add.
  match goal with
  | |- context [trials_loop G P (Z.to_nat (n - k)) ?c ?r ?s0] =>
      destruct (trials_loop_entries G P (Z.to_nat (n - k)) c r s0)
        as [more [H [_ L]]]
  end.
  exists more. split; [exact H | exact L].
Qed.

End Prefix.

(** X15. Running more trials reproduces the shorter run: for
    [1 <= k <= n], the table of the simulation with [n] trials starts with
    the [k] rows of the simulation with [k] trials of the same composition,
    followed by [n - k] further rows. *)
Theorem longer_run_extends_shorter (G : Generator) (P : Params) (k n : Z)
    (composition : option Composition) (s : np_state G) :
  (1 <= k <= n)%Z ->
  exists (short long : Summary) (more : list ResultRow),
    fst (simulate_collective_intelligence G P k composition s) = inr short /\
    fst (simulate_collective_intelligence G P n composition s) = inr long /\
    data long = data short ++ more /\
    length (data short) = Z.to_nat k /\
    length more = Z.to_nat (n - k).
Proof.
  intro Hk.
  destruct (simulate_returns G P k composition s ltac:(lia)) as [_ Hshort].
  destruct (simulate_returns G P n composition s ltac:(lia)) as [_ Hlong].
  destruct (run_trials_prefix G P k n composition s ltac:(lia)) as [more [H L]].
  destruct (run_trials_entries G P k composition s) as [_ Lk].
  rewrite Hshort, Hlong. simpl fst.
  eexists. eexists. exists (map snd more).
  split; [reflexivity |]. split; [reflexivity |]. simpl data.
  rewrite H, map_app, !length_map. auto.
Qed.

Lemma longer_run_extends_shorter_witness :
  (1 <= 2 <= 5)%Z /\
  exists (short long : Summary) (more : list ResultRow),
    fst (simulate_collective_intelligence cycle_generator EMPIRICAL_PARAMS 2
           None (fresh_state 0)) = inr short /\
    fst (simulate_collective_intelligence cycle_generator EMPIRICAL_PARAMS 5
           None (fresh_state 0)) = inr long /\
    data long = data short ++ more /\
    length (data short) = 2%nat /\
    length more = 3%nat.
Proof.
  split; [lia |].
  apply (longer_run_extends_shorter cycle_generator EMPIRICAL_PARAMS 2 5 None
           (fresh_state 0)).
  lia.
Defined.
